(** * Splitting oversized public assets and rebuilding them in the browser

    A shallow embedding of

    - [scripts/split-public-files.mjs]: the build step that cuts every file
      of the public directory larger than [MAX_SIZE] into [.partN] chunks
      and records the chunk count in [chunks-manifest.json];
    - [src/js/utils/libreoffice-loader.ts]: [getReconstructedFileUrl], which
      reads the manifest in the browser, fetches the chunks and glues them
      into one blob, the [getLibreOfficeConverter] singleton, and the
      methods of [class LibreOfficeConverter] around the conversion engine.

    Sizes and loop counters are in [N] and JSON numbers in [Z]: a file
    is taken to fit a Node.js [Buffer], and every such size is
    represented exactly by a double, so [Math.ceil (size / MAX_SIZE)] is
    ceiling division.  The percentage of a progress report is a
    [number]: a fraction with a power of two below, [NaN] or an infinity.
    Strings are sequences of character codes.  Console output is not
    modelled.

    A JavaScript object used as a dictionary is a [gmap] over its own
    string keys.  A lookup goes on to the prototypes of the value, which
    are the built-in ones.  An assignment writes an own property; the key
    [__proto__], which an object without an own property of that name
    hands to a setter of its prototype, is left to the hypotheses of the
    statements that read the entry back.

    Paths are POSIX paths, and [PUBLIC_DIR] is the absolute, normalised
    path [path.resolve] returns.  Of the ways a file operation can fail
    only a missing file is modelled: a statement that a run goes through
    is for a public directory in which no directory stands where the run
    writes a file. *)

From Stdlib Require Import ZArith NArith Lia.
From Stdlib.Strings Require Import Byte Ascii String.
From stdpp Require Import gmap strings list pretty.

Set Warnings "-register-all".

Abbreviation bytes := (list byte).

(** ** JavaScript strings *)

Module Str.

(** [s.startsWith(p)] *)
Fixpoint startsWith (s p : string) : bool :=
  match p, s with
  | EmptyString, _ => true
  | String _ _, EmptyString => false
  | String c p', String d s' => if decide (c = d) then startsWith s' p' else false
  end.

(** [s.substring(k)] *)
Fixpoint substring (s : string) (k : nat) : string :=
  match k, s with
  | O, _ => s
  | S _, EmptyString => EmptyString
  | S k', String _ s' => substring s' k'
  end.

(** [s.replace(/\\/g, '/')] *)
Fixpoint replace_backslash (s : string) : string :=
  match s with
  | EmptyString => EmptyString
  | String c s' =>
      String (if decide (c = "\"%char) then "/"%char else c) (replace_backslash s')
  end.

(** The template literal [`${n}`] of a non-negative integer. *)
Definition of_number (n : N) : string := pretty n.

End Str.

(** ** Node's [path] module, on the paths the script builds *)

Module Path.

(** [path.join(dir, file)] for a directory path and an entry name. *)
Definition join (dir file : string) : string := dir +:+ "/" +:+ file.

(** [path.relative(from, to)] for a [to] that lies below [from]; the
    script only asks for paths listed by the walk of [from]. *)
Definition relative (from to : string) : string :=
  if Str.startsWith to (from +:+ "/")
  then Str.substring to (String.length (from +:+ "/"))
  else to.

End Path.

(** ** JavaScript values *)

(** A number: [m * 2^e] for integers [m] and [e], or one of the three
    values that are no such product.  Every finite double is of this
    form; the sign of a zero is not kept. *)
Inductive number :=
| Dyadic (m e : Z)
| NaN
| PlusInfinity
| MinusInfinity.

(** The number an integer literal stands for. *)
Definition integer (z : Z) : number := Dyadic z 0.

(** A parsed JSON document. *)
Inductive json :=
| JNull
| JBool (b : bool)
| JNum (n : Z)
| JStr (s : string)
| JArr (items : list json)
| JObj (props : gmap string json).

(** What the engine answers when a value that is not a number, a boolean or
    [null] is coerced to a number. *)
Inductive coercion :=
| IsNumber (n : Z)
| IsNaN
| CoercionThrows.

(** The prototypes of the values that are no plain object. *)
Inductive prototype :=
| ArrayPrototype
| StringPrototype
| NumberPrototype
| BooleanPrototype.

Inductive error :=
| ENOENT (path : string)
| TypeError
| RangeError
| SyntaxError
| NetworkFailure
| Failure (message : string).

(** The surroundings of the two programs: where the public directory is, the
    base URL the site is served under, and the JavaScript built-ins. *)
Class Host := {
  PUBLIC_DIR : string;     (* path.resolve(__dirname, '../public'), normalised *)
  DIST_URL : string;                      (* import.meta.env.BASE_URL *)
  JSON_parse : bytes → option json;       (* None: SyntaxError *)
  JSON_stringify : json → bytes;
  ToNumber_other : json → coercion;       (* ToNumber on strings, arrays, objects *)
  prototype_keys : prototype → list string;
                                          (* the string keys of Array.prototype, ... *)
  Number_toString_other : number → string;
                     (* `${x}` for a finite x that is no integer of at most 2^53 *)
}.

Module Js.

(** [!v] is [true] for these values ([None] is [undefined]). *)
Definition truthy (v : option json) : bool :=
  match v with
  | None => false
  | Some JNull => false
  | Some (JBool b) => b
  | Some (JNum n) => negb (n =? 0)%Z
  | Some (JStr s) => negb (String.eqb s "")
  | Some (JArr _) => true
  | Some (JObj _) => true
  end.

(** [ToNumber v] for a value already known to be defined. *)
Definition ToNumber `{Host} (v : json) : coercion :=
  match v with
  | JNum n => IsNumber n
  | JBool b => IsNumber (if b then 1 else 0)
  | JNull => IsNumber 0
  | _ => ToNumber_other v
  end.

(** A canonical array index: the decimal spelling of some [i < 2^32 - 1]. *)
Fixpoint digits_value (s : string) (acc : N) : option N :=
  match s with
  | EmptyString => Some acc
  | String c s' =>
      let d := Ascii.N_of_ascii c in
      if ((48 <=? d) && (d <=? 57))%N
      then digits_value s' (10 * acc + (d - 48))%N
      else None
  end.

Definition array_index (k : string) : option N :=
  match k with
  | EmptyString => None
  | _ =>
      match digits_value k 0 with
      | Some i =>
          if decide (Str.of_number i = k ∧ (i < 4294967295)%N) then Some i else None
      | None => None
      end
  end.

(** [a[i] = v] on an array: in range it replaces, past the end it grows
    the array (the holes print as [null]). *)
Definition array_put (items : list json) (i : nat) (v : json) : list json :=
  if decide (i < length items)
  then <[i := v]> items
  else items ++ replicate (i - length items) JNull ++ [v].

(** [a.length = n]: the array is cut, or grows by holes. *)
Definition array_resize (items : list json) (n : nat) : list json :=
  take n items ++ replicate (n - length items) JNull.

Inductive assignment :=
| Assigned (doc : json)
| AssignThrows (e : error).

(** [doc[k] = n] in strict code, for a number [n].  On an array [length]
    is the length and an index is an element; any other key becomes an
    extra property, which [JSON.stringify] skips.  A boolean, a number or
    a string takes no property; the key [__proto__] alone finds a setter
    on the prototype, which does nothing with a number.  On an object a
    key is written as an own property; for [__proto__] that is what
    happens when the object has an own property of that name, and an
    object without one is left to the hypotheses of the statements. *)
Definition set_prop (doc : json) (k : string) (n : Z) : assignment :=
  match doc with
  | JObj props => Assigned (JObj (<[k := JNum n]> props))
  | JArr items =>
      if String.eqb k "length" then
        if ((0 <=? n) && (n <? 2 ^ 32))%Z
        then Assigned (JArr (array_resize items (Z.to_nat n)))
        else AssignThrows RangeError
      else
        match array_index k with
        | Some i => Assigned (JArr (array_put items (N.to_nat i) (JNum n)))
        | None => Assigned (JArr items)
        end
  | JBool _ | JNum _ | JStr _ =>
      if String.eqb k "__proto__" then Assigned doc else AssignThrows TypeError
  | JNull => AssignThrows TypeError
  end.

(** The string keys of [Object.prototype]. *)
Definition Object_prototype_keys : list string :=
  ["constructor"; "__defineGetter__"; "__defineSetter__"; "hasOwnProperty";
   "__lookupGetter__"; "__lookupSetter__"; "isPrototypeOf";
   "propertyIsEnumerable"; "toString"; "valueOf"; "__proto__"; "toLocaleString"].

Definition has_key (keys : list string) (k : string) : bool :=
  existsb (String.eqb k) keys.

(** The own property [k] of a value other than [null]. *)
Definition own_prop (doc : json) (k : string) : option json :=
  match doc with
  | JObj props => props !! k
  | JArr items =>
      if String.eqb k "length" then Some (JNum (Z.of_nat (length items)))
      else match array_index k with
           | Some i => items !! N.to_nat i
           | None => None
           end
  | JStr s =>
      if String.eqb k "length" then Some (JNum (Z.of_nat (String.length s)))
      else match array_index k with
           | Some i =>
               match String.get (N.to_nat i) s with
               | Some c => Some (JStr (String c EmptyString))
               | None => None
               end
           | None => None
           end
  | JNull | JBool _ | JNum _ => None
  end.

(** Whether [k] is a key of a prototype of [doc]: of the prototype of
    its kind or of [Object.prototype], in which every chain ends. *)
Definition inherited `{Host} (doc : json) (k : string) : bool :=
  has_key Object_prototype_keys k
  || match doc with
     | JArr _ => has_key (prototype_keys ArrayPrototype) k
     | JStr _ => has_key (prototype_keys StringPrototype) k
     | JNum _ => has_key (prototype_keys NumberPrototype) k
     | JBool _ => has_key (prototype_keys BooleanPrototype) k
     | JObj _ | JNull => false
     end.

(** What [doc[k]] gives: an own property or [undefined], or what a
    prototype has under the key, which is a function or, under
    [__proto__], the prototype itself. *)
Inductive lookup_result :=
| Found (v : option json)
| Inherited
| LookupThrows.

(** [doc[k]] *)
Definition get_prop `{Host} (doc : json) (k : string) : lookup_result :=
  match doc with
  | JNull => LookupThrows
  | _ =>
      match own_prop doc k with
      | Some v => Found (Some v)
      | None => if inherited doc k then Inherited else Found None
      end
  end.

End Js.

(** ** A state monad with exceptions

    A computation runs on a state and either returns or throws; the state
    it leaves behind is kept in both cases. *)

Inductive completion (A : Type) :=
| Returns (a : A)
| Throws (e : error).
Arguments Returns {A} a.
Arguments Throws {A} e.

Definition M (St A : Type) : Type := St → completion A * St.

Definition ret {St A} (a : A) : M St A := λ s, (Returns a, s).
Definition throw {St A} (e : error) : M St A := λ s, (Throws e, s).
Definition bind {St A B} (m : M St A) (k : A → M St B) : M St B :=
  λ s, match m s with
       | (Returns a, s') => k a s'
       | (Throws e, s') => (Throws e, s')
       end.
Definition try_catch {St A} (body : M St A) (handler : error → M St A) : M St A :=
  λ s, match body s with
       | (Returns a, s') => (Returns a, s')
       | (Throws e, s') => handler e s'
       end.

Notation "'let*' x ':=' m 'in' k" := (bind m (λ x, k))
  (at level 10, x name, m at level 100, k at level 200, only parsing).

(** ** The file system the build script sees *)

(** The directory tree as [readdirSync] and [statSync(...).isDirectory()]
    report it: the entries of a directory in listing order. *)
Inductive dirent :=
| RegularFile
| Directory (entries : list (string * dirent)).

(** The effects of a run, oldest first. *)
Inductive fs_op :=
| OpWrite (path : string) (data : bytes)
| OpUnlink (path : string).

(** The regular files by full path, and the log of what was done to them. *)
Record fs := Fs {
  disk : gmap string bytes;
  oplog : list fs_op;
}.

Module Fs.

Definition existsSync (path : string) : M fs bool :=
  λ s, (Returns (bool_decide (is_Some (disk s !! path))), s).

(** [fs.statSync(path).size] *)
Definition statSync_size (path : string) : M fs N :=
  λ s, match disk s !! path with
       | Some data => (Returns (N.of_nat (length data)), s)
       | None => (Throws (ENOENT path), s)
       end.

Definition readFileSync (path : string) : M fs bytes :=
  λ s, match disk s !! path with
       | Some data => (Returns data, s)
       | None => (Throws (ENOENT path), s)
       end.

Definition writeFileSync (path : string) (data : bytes) : M fs unit :=
  λ s, (Returns (), Fs (<[path := data]> (disk s)) (oplog s ++ [OpWrite path data])).

Definition unlinkSync (path : string) : M fs unit :=
  λ s, match disk s !! path with
       | Some _ => (Returns (), Fs (delete path (disk s)) (oplog s ++ [OpUnlink path]))
       | None => (Throws (ENOENT path), s)
       end.

End Fs.

(** [buffer.subarray(start, end)] *)
Definition subarray (buffer : bytes) (start end_ : N) : bytes :=
  take (N.to_nat (end_ - start)) (drop (N.to_nat start) buffer).

(** [Math.ceil(size / max)] for a positive [max]. *)
Definition ceil_div (size max : N) : N := ((size + max - 1) / max)%N.

(** ** [scripts/split-public-files.mjs] *)

Definition MAX_SIZE : N := 20 * 1024 * 1024.

(** How a run of the script ends: it returns, or it leaves with
    [process.exit(1)]. *)
Inductive outcome :=
| Finished (s : fs)
| Exit1 (s : fs).

Section Splitter.
Context `{Host}.

Definition MANIFEST_FILE : string := Path.join PUBLIC_DIR "chunks-manifest.json".

(** The callback of [files.forEach] in [getAllFiles], on the entry at
    [filePath]; a directory is walked by the recursive call. *)
Fixpoint visit (filePath : string) (node : dirent) (fileList : list string)
  : list string :=
  match node with
  | Directory entries =>
      fold_left (λ fileList e, visit (Path.join filePath e.1) e.2 fileList)
        entries fileList
  | RegularFile => fileList ++ [filePath]
  end.

Definition getAllFiles (dir : string) (entries : list (string * dirent))
    (fileList : list string) : list string :=
  fold_left (λ fileList e, visit (Path.join dir e.1) e.2 fileList) entries fileList.

(** The manifest key of a file:
    [path.relative(PUBLIC_DIR, filePath).replace(/\\/g, '/')]. *)
Definition relativePathOf (filePath : string) : string :=
  Str.replace_backslash (Path.relative PUBLIC_DIR filePath).

(** The threshold is a parameter of the definitions below; the script
    runs them at [MAX_SIZE]. *)
Variable maxChunkSizeBytes : N.

Definition chunkPath (filePath : string) (i : N) : string :=
  filePath +:+ ".part" +:+ Str.of_number (i + 1).

(** The inner loop [for (let i = 0; i < totalChunks; i++)], with
    [remaining] iterations left from [i] on. *)
Fixpoint write_chunks (filePath : string) (buffer : bytes) (size : N)
    (remaining : nat) (i : N) : M fs unit :=
  match remaining with
  | O => ret ()
  | S remaining' =>
      let start := (i * maxChunkSizeBytes)%N in
      let end_ := N.min (start + maxChunkSizeBytes) size in
      let chunk := subarray buffer start end_ in
      let* _ := Fs.writeFileSync (chunkPath filePath i) chunk in
      write_chunks filePath buffer size remaining' (i + 1)%N
  end.

(** The body of [for (const filePath of files)]; the loop carries
    [manifest] and [changed]. *)
Definition split_file (filePath : string) (vars : json * bool) : M fs (json * bool) :=
  let '(manifest, changed) := vars in
  if decide (filePath = MANIFEST_FILE) then ret (manifest, changed)
  else
    let* size := Fs.statSync_size filePath in
    if (maxChunkSizeBytes <? size)%N then
      let relativePath := relativePathOf filePath in
      let* buffer := Fs.readFileSync filePath in
      let totalChunks := ceil_div size maxChunkSizeBytes in
      match Js.set_prop manifest relativePath (Z.of_N totalChunks) with
      | Js.AssignThrows e => throw e
      | Js.Assigned manifest =>
          let* _ := write_chunks filePath buffer size (N.to_nat totalChunks) 0 in
          let* _ := Fs.unlinkSync filePath in
          ret (manifest, true)
      end
    else ret (manifest, changed).

Fixpoint for_files (files : list string) (vars : json * bool) : M fs (json * bool) :=
  match files with
  | [] => ret vars
  | filePath :: files' =>
      let* vars := split_file filePath vars in
      for_files files' vars
  end.

(** Load the existing manifest, if any; a manifest that does not parse is
    replaced by the empty object. *)
Definition load_manifest : M fs json :=
  let* present := Fs.existsSync MANIFEST_FILE in
  if (present : bool) then
    try_catch
      (let* text := Fs.readFileSync MANIFEST_FILE in
       match JSON_parse text with
       | Some manifest => ret manifest
       | None => throw SyntaxError
       end)
      (λ _, ret (JObj ∅))
  else ret (JObj ∅).

Definition splitFiles_body (entries : list (string * dirent)) : M fs unit :=
  let files := getAllFiles PUBLIC_DIR entries [] in
  let* manifest := load_manifest in
  let* vars := for_files files (manifest, false) in
  if (vars.2 : bool)
  then Fs.writeFileSync MANIFEST_FILE (JSON_stringify vars.1)
  else ret ().

(** [splitFiles().catch(... process.exit(1))]; [root] is [None] when the
    public directory does not exist. *)
Definition splitFilesWith (root : option (list (string * dirent))) (s : fs) : outcome :=
  match root with
  | None => Exit1 s
  | Some entries =>
      match splitFiles_body entries s with
      | (Returns _, s') => Finished s'
      | (Throws _, s') => Exit1 s'
      end
  end.

End Splitter.

Definition splitFiles `{Host} := splitFilesWith MAX_SIZE.

(** ** The browser side: [src/js/utils/libreoffice-loader.ts] *)

(** An HTTP response: its [ok] flag and its body ([None] when reading the
    body fails). *)
Record response := Response {
  ok : bool;
  body : option bytes;
}.

(** What the browser did so far: the URLs it requested, oldest first, and
    the blobs registered with [URL.createObjectURL]. *)
Record browser := Browser {
  requests : list string;
  object_urls : list bytes;
}.

Section Reconstructor.
Context `{Host}.

(** The network: the response to a GET of a URL, [None] when the request
    itself fails. *)
Variable net : string → option response.

Definition fetch (url : string) : M browser response :=
  λ w, let w' := Browser (requests w ++ [url]) (object_urls w) in
       match net url with
       | Some res => (Returns res, w')
       | None => (Throws NetworkFailure, w')
       end.

(** [res.json()] *)
Definition response_json (res : response) : M browser json :=
  match body res with
  | None => throw NetworkFailure
  | Some text =>
      match JSON_parse text with
      | Some doc => ret doc
      | None => throw SyntaxError
      end
  end.

(** [res.blob()] *)
Definition response_blob (res : response) : M browser bytes :=
  match body res with
  | None => throw NetworkFailure
  | Some data => ret data
  end.

(** The URL handed out for the [k]-th registered blob. *)
Definition object_url (k : nat) : string := "blob:" +:+ pretty k.

(** [URL.createObjectURL(blob)] *)
Definition createObjectURL (blob : bytes) : M browser string :=
  λ w, (Returns (object_url (length (object_urls w))),
        Browser (requests w) (object_urls w ++ [blob])).

(** The bytes behind an object URL. *)
Definition resolve_object_url (w : browser) (url : string) : option bytes :=
  match list_find (λ k, object_url k = url) (seq 0 (length (object_urls w))) with
  | Some (_, k) => object_urls w !! k
  | None => None
  end.

(** The loop [for (let i = 0; i < totalChunks; i++)] with [remaining]
    iterations left from [i] on; [chunks] is the array filled so far. *)
Fixpoint fetch_chunks (originalUrl : string) (remaining : nat) (i : N)
    (chunks : list bytes) : M browser (list bytes) :=
  match remaining with
  | O => ret chunks
  | S remaining' =>
      let chunkUrl := originalUrl +:+ ".part" +:+ Str.of_number (i + 1) in
      let* chunkRes := fetch chunkUrl in
      if negb (ok chunkRes)
      then throw (Failure ("Failed to fetch chunk " +:+ chunkUrl))
      else
        let* blob := response_blob chunkRes in
        fetch_chunks originalUrl remaining' (i + 1)%N (chunks ++ [blob])
  end.

(** How often the test [i < totalChunks] holds for [i = 0, 1, ...]. *)
Definition iterations (totalChunks : json) : M browser nat :=
  match Js.ToNumber totalChunks with
  | IsNumber n => ret (Z.to_nat n)
  | IsNaN => ret O
  | CoercionThrows => throw TypeError
  end.

(** The manifest key of a URL. *)
Definition manifest_key (originalUrl : string) : string :=
  let relativePath := originalUrl in
  let relativePath :=
    if Str.startsWith relativePath DIST_URL
    then Str.substring relativePath (String.length DIST_URL)
    else relativePath in
  let relativePath :=
    if Str.startsWith relativePath "/"
    then Str.substring relativePath 1
    else relativePath in
  relativePath.

Definition getReconstructedFileUrl (basePath fileName : string) : M browser string :=
  let originalUrl := basePath +:+ fileName in
  let manifestUrl := DIST_URL +:+ "chunks-manifest.json" in
  try_catch
    (let* manifestRes := fetch manifestUrl in
     if negb (ok manifestRes) then ret originalUrl
     else
       let* manifest := response_json manifestRes in
       let relativePath := manifest_key originalUrl in
       match Js.get_prop manifest relativePath with
       | Js.LookupThrows => throw TypeError
       | Js.Found totalChunks =>
           if negb (Js.truthy totalChunks) then ret originalUrl
           else
             let* count := iterations (default JNull totalChunks) in
             let* chunks := fetch_chunks originalUrl count 0 [] in
             let blob := concat chunks in
             createObjectURL blob
       | Js.Inherited =>
           (* a function or a prototype: truthy, and as a number [NaN] or
              [0], so that [0 < totalChunks] fails *)
           let* chunks := fetch_chunks originalUrl 0 0 [] in
           let blob := concat chunks in
           createObjectURL blob
       end)
    (λ _, ret originalUrl).

End Reconstructor.

(** ** The converter singleton *)

Record LibreOfficeConverter := Converter {
  converter : option unit;       (* the WorkerBrowserConverter, once created *)
  initialized : bool;
  initializing : bool;
  basePath : string;
}.

(** The module's state: the objects created so far, by address, and the
    module variable [converterInstance] ([None] is [null]). *)
Record module_state := ModuleState {
  heap : list LibreOfficeConverter;
  converterInstance : option nat;
}.

Section Singleton.
Context `{Host}.

Definition LIBREOFFICE_LOCAL_PATH : string := DIST_URL +:+ "libreoffice-wasm/".

(** [new LibreOfficeConverter(basePath)]: [basePath || LIBREOFFICE_LOCAL_PATH]. *)
Definition new_LibreOfficeConverter (basePath : option string) : LibreOfficeConverter :=
  Converter None false false
    (match basePath with
     | Some p => if String.eqb p "" then LIBREOFFICE_LOCAL_PATH else p
     | None => LIBREOFFICE_LOCAL_PATH
     end).

Definition getLibreOfficeConverter (basePath : option string) (σ : module_state)
  : nat * module_state :=
  match converterInstance σ with
  | Some instance => (instance, σ)
  | None =>
      let instance := length (heap σ) in
      (instance,
       ModuleState (heap σ ++ [new_LibreOfficeConverter basePath]) (Some instance))
  end.

(** What else the rest of the page can do with the module: build its own
    converters, and run the methods that assign fields of one. *)
Inductive init_result :=
| EngineReady
| ConstructorThrows        (* [new WorkerBrowserConverter] throws *)
| EngineThrows.            (* [this.converter.initialize()] rejects *)

Inductive call :=
| CallGet (basePath : option string)
| CallNew (basePath : option string)
| CallInitialize (this : nat) (result : init_result)
| CallDestroy (this : nat).

(** [initialize] when it runs to its end: [converter] is assigned once
    the engine object exists, [initialized] becomes [true] when the
    engine is ready, and [finally] resets [initializing]. *)
Definition initialize_fields (result : init_result) (o : LibreOfficeConverter)
  : LibreOfficeConverter :=
  if initialized o then o
  else match result with
       | EngineReady => Converter (Some ()) true false (basePath o)
       | ConstructorThrows => Converter (converter o) false false (basePath o)
       | EngineThrows => Converter (Some ()) false false (basePath o)
       end.

Definition destroy_fields (o : LibreOfficeConverter) : LibreOfficeConverter :=
  Converter None false (initializing o) (basePath o).

(** One call; the result is the object a call returns, if any. *)
Definition step (c : call) (σ : module_state) : option nat * module_state :=
  match c with
  | CallGet basePath =>
      let '(r, σ') := getLibreOfficeConverter basePath σ in (Some r, σ')
  | CallNew basePath =>
      (Some (length (heap σ)),
       ModuleState (heap σ ++ [new_LibreOfficeConverter basePath]) (converterInstance σ))
  | CallInitialize this result =>
      (None, ModuleState (alter (initialize_fields result) this (heap σ))
               (converterInstance σ))
  | CallDestroy this =>
      (None, ModuleState (alter destroy_fields this (heap σ)) (converterInstance σ))
  end.

(** A run of calls; the results of the [CallGet]s, in order. *)
Fixpoint run (calls : list call) (σ : module_state) : list nat * module_state :=
  match calls with
  | [] => ([], σ)
  | c :: calls' =>
      let '(r, σ') := step c σ in
      let '(rs, σ'') := run calls' σ' in
      (match c, r with CallGet _, Some r => r :: rs | _, _ => rs end, σ'')
  end.

End Singleton.

(** ** Vocabulary of the statements *)

(** The names [<p>.part1], ..., [<p>.part<n>], in this order. *)
Definition part_names (p : string) (n : nat) : list string :=
  (λ k : nat, p +:+ ".part" +:+ Str.of_number (N.of_nat k)) <$> seq 1 n.


(** A list of writes applied to a disk, first to last. *)
Definition apply_writes (ws : list (string * bytes)) (d : gmap string bytes)
  : gmap string bytes :=
  foldl (λ d w, <[w.1 := w.2]> d) d ws.

Definition write_ops (ws : list (string * bytes)) : list fs_op :=
  (λ w, OpWrite w.1 w.2) <$> ws.

(** The byte ranges of a buffer that [remaining] rounds of the chunk loop
    cut from round [i] on, with the path each goes to. *)
Fixpoint chunk_writes (m : N) (filePath : string) (buffer : bytes) (size : N)
    (remaining : nat) (i : N) : list (string * bytes) :=
  match remaining with
  | O => []
  | S remaining' =>
      (chunkPath filePath i, subarray buffer (i * m) (N.min (i * m + m) size))
      :: chunk_writes m filePath buffer size remaining' (i + 1)
  end.

(** The state a split leaves: the chunks written, the original removed. *)
Definition after_split (m : N) (filePath : string) (data : bytes) (s : fs) : fs :=
  let size := N.of_nat (length data) in
  let ws := chunk_writes m filePath data size (N.to_nat (ceil_div size m)) 0 in
  Fs (delete filePath (apply_writes ws (disk s)))
     (oplog s ++ write_ops ws ++ [OpUnlink filePath]).

(** The object [r] has base path [b], and the module variable points to it. *)
Definition singleton_is (r : nat) (b : string) (σ : module_state) : Prop :=
  converterInstance σ = Some r ∧ basePath <$> heap σ !! r = Some b.

Section Vocabulary.
Context `{Host}.

Definition manifestUrl : string := DIST_URL +:+ "chunks-manifest.json".

(** The browser once the manifest has been requested. *)
Definition asked_manifest (w : browser) : browser :=
  Browser (requests w ++ [manifestUrl]) (object_urls w).

(** The chunks are fetched and glued, or the attempt is given up. *)
Definition assemble (net : string → option response) (originalUrl : string)
    (totalChunks : json) : M browser string :=
  let* count := iterations totalChunks in
  let* chunks := fetch_chunks net originalUrl count 0 [] in
  createObjectURL (concat chunks).

(** The manifest cannot be had: the request fails, the status is not a
    success, the body cannot be read, or it is not JSON. *)
Definition manifest_fetch_fails (net : string → option response) : Prop :=
  match net manifestUrl with
  | None => True
  | Some res =>
      ok res = false ∨
      match body res with
      | None => True
      | Some text => JSON_parse text = None
      end
  end.

(** The manifest is served and parses to [doc]. *)
Definition manifest_served (net : string → option response) (doc : json) : Prop :=
  ∃ text, net manifestUrl = Some (Response true (Some text))
          ∧ JSON_parse text = Some doc.

(** A chunk cannot be had: the request fails, the status is not a
    success, or the body cannot be read. *)
Definition chunk_fetch_fails (net : string → option response) (url : string) : Prop :=
  match net url with
  | None => True
  | Some res => ok res = false ∨ body res = None
  end.

(** [key] is [url] without the prefix [DIST_URL], when it has it, and then
    without one leading ['/'], when it has one. *)
Definition stripped_key (url key : string) : Prop :=
  ∃ rest,
    (url = DIST_URL +:+ rest ∨ ((∀ r, url ≠ DIST_URL +:+ r) ∧ rest = url))
    ∧ (rest = "/" +:+ key ∨ ((∀ r, rest ≠ "/" +:+ r) ∧ key = rest)).

(** Every file still on the disk, the manifest apart, is at most [m]
    bytes long or is yet to be visited. *)
Definition small_or_pending (m : N) (pending : list string) (s : fs) : Prop :=
  ∀ p data, disk s !! p = Some data → p ≠ MANIFEST_FILE →
            (N.of_nat (length data) ≤ m)%N ∨ p ∈ pending.

End Vocabulary.

(** ** A small instance to run the definitions on *)

Module Demo.

(** A toy codec: three texts stand for three documents, any other text is
    not JSON; an object prints as a tag and its number of entries. *)
Definition manifest_a : json := JObj {[ "a.bin" := JNum 3 ]}.
Definition manifest_gz : json := JObj {[ "libreoffice-wasm/soffice.data.gz" := JNum 2 ]}.

Definition parse (text : bytes) : option json :=
  match text with
  | [x] =>
      if Byte.eqb x x41 then Some manifest_a
      else if Byte.eqb x x42 then Some manifest_gz
      else if Byte.eqb x x30 then Some (JNum 0)
      else None
  | _ => None
  end.

Definition stringify (doc : json) : bytes :=
  match doc with
  | JObj props => [x7b; default x00 (Byte.of_N (N.of_nat (size props))); x7d]
  | _ => [x3f]
  end.

(** Some of the keys of the built-in prototypes. *)
Definition some_prototype_keys (proto : prototype) : list string :=
  match proto with
  | ArrayPrototype => ["concat"; "join"; "pop"; "push"; "slice"; "map"; "filter"]
  | StringPrototype => ["charAt"; "concat"; "indexOf"; "slice"; "trim"]
  | NumberPrototype => ["toFixed"; "toPrecision"]
  | BooleanPrototype => []
  end.

Definition host : Host := {|
  PUBLIC_DIR := "/srv/public";
  DIST_URL := "/";
  JSON_parse := parse;
  JSON_stringify := stringify;
  ToNumber_other := λ _, IsNaN;
  prototype_keys := some_prototype_keys;
  Number_toString_other := λ _, "?";
|}.

(** The network as a table of URLs. *)
Definition table_net (table : list (string * response)) (url : string)
  : option response :=
  (list_to_map table : gmap string response) !! url.

(** A static server over a disk: [DIST_URL + rel] answers with the file
    [PUBLIC_DIR/rel], or with a 404. *)
Definition static_server `{Host} (d : gmap string bytes) (url : string)
  : option response :=
  if Str.startsWith url DIST_URL then
    match d !! Path.join PUBLIC_DIR (Str.substring url (String.length DIST_URL)) with
    | Some data => Some (Response true (Some data))
    | None => Some (Response false (Some []))
    end
  else None.

Definition ten_bytes : bytes := [x01; x02; x03; x04; x05; x06; x07; x08; x09; x0a].
Definition seven_bytes : bytes := [x61; x62; x63; x64; x65; x66; x67].

(** A public directory with one file of ten bytes, one of four and a
    manifest that is not JSON. *)
Definition tree0 : list (string * dirent) :=
  [("a.bin", RegularFile);
   ("chunks-manifest.json", RegularFile);
   ("lib", Directory [("b.bin", RegularFile)])].

Definition disk0 : gmap string bytes :=
  <["/srv/public/a.bin" := ten_bytes]>
    (<["/srv/public/chunks-manifest.json" := [x21]]>
       (<["/srv/public/lib/b.bin" := [x01; x02; x03; x04]]> ∅)).

Definition fs0 : fs := Fs disk0 [].

(** The same directory after a run with a threshold of four bytes. *)
Definition fs1 : fs :=
  match splitFilesWith (H := host) 4 (Some tree0) fs0 with
  | Finished s => s
  | Exit1 s => s
  end.

Definition tree1 : list (string * dirent) :=
  [("a.bin.part1", RegularFile);
   ("a.bin.part2", RegularFile);
   ("a.bin.part3", RegularFile);
   ("chunks-manifest.json", RegularFile);
   ("lib", Directory [("b.bin", RegularFile)])].


Definition net_gz : string → option response :=
  table_net
    [("/chunks-manifest.json", Response true (Some [x42]));
     ("/libreoffice-wasm/soffice.data.gz.part1", Response true (Some [x61; x62; x63; x64]));
     ("/libreoffice-wasm/soffice.data.gz.part2", Response true (Some [x65; x66; x67]))].

(** Three chunks announced, the second one missing. *)
Definition net_gap : string → option response :=
  table_net
    [("/chunks-manifest.json", Response true (Some [x41]));
     ("/a.bin.part1", Response true (Some [x01; x02; x03; x04]));
     ("/a.bin.part2", Response false (Some []));
     ("/a.bin.part3", Response true (Some [x09; x0a]))].



Definition browser0 : browser := Browser [] [].

Definition module0 : module_state := ModuleState [] None.

End Demo.

(** ** Vocabulary of the further properties *)

(** The regular files of a tree, counted. *)
Fixpoint count_regular (node : dirent) : nat :=
  match node with
  | RegularFile => 1
  | Directory entries => sum_list ((λ e, count_regular e.2) <$> entries)
  end.

Fixpoint no_slash (name : string) : bool :=
  match name with
  | EmptyString => true
  | String c name' => if decide (c = "/"%char) then false else no_slash name'
  end.

(** A tree as a file system hands it out: in every directory the names
    are pairwise distinct and none contains a ['/']. *)
Fixpoint hygienic (node : dirent) : bool :=
  match node with
  | RegularFile => true
  | Directory entries =>
      bool_decide (NoDup entries.*1)
      && forallb (λ e, no_slash e.1 && hygienic e.2) entries
  end.

(** [p] is [fp] itself or lies below it. *)
Definition below (fp p : string) : Prop :=
  ∃ tail, p = fp +:+ tail ∧ (tail = "" ∨ ∃ rest, tail = "/" +:+ rest).

(** What a run may do to the disk: remove a listed file other than the
    manifest, write a numbered part of at most [m] bytes next to such a
    file, or write the manifest. *)
Definition permitted_op `{Host} (m : N) (files : list string) (op : fs_op) : Prop :=
  match op with
  | OpUnlink p => p ∈ files ∧ p ≠ MANIFEST_FILE
  | OpWrite p data =>
      p = MANIFEST_FILE
      ∨ ∃ f (k : N), f ∈ files ∧ f ≠ MANIFEST_FILE
                     ∧ p = f +:+ ".part" +:+ Str.of_number k
                     ∧ (1 ≤ k)%N ∧ (N.of_nat (length data) ≤ m)%N
  end.

(** The state a run ends in, however it ends. *)
Definition final_state (o : outcome) : fs :=
  match o with
  | Finished s => s
  | Exit1 s => s
  end.

(** A parsed document that takes no property. *)
Definition unassignable (doc : json) : bool :=
  match doc with
  | JNull | JBool _ | JNum _ | JStr _ => true
  | JArr _ | JObj _ => false
  end.

(** Some file of the list, the manifest apart, is larger than [m]. *)
Definition some_oversized `{Host} (m : N) (files : list string) (s : fs) : Prop :=
  ∃ f data, f ∈ files ∧ f ≠ MANIFEST_FILE ∧ disk s !! f = Some data
            ∧ (m < N.of_nat (length data))%N.




(** A name that is not empty, not ["."] and not [".."], and has no ['/']. *)
Definition plain_name (name : string) : bool :=
  no_slash name
  && negb (String.eqb name "") && negb (String.eqb name ".")
  && negb (String.eqb name "..").

(** A relative path made of plain names with one ['/'] between them, as
    [path.join] and [path.relative] leave it; [segment] is the part of
    the current name read so far. *)
Fixpoint plain_path_from (segment rel : string) : bool :=
  match rel with
  | EmptyString => plain_name segment
  | String c rel' =>
      if decide (c = "/"%char) then plain_name segment && plain_path_from "" rel'
      else plain_path_from (segment +:+ String c "") rel'
  end.

Definition plain_path (rel : string) : bool := plain_path_from "" rel.

(** ** The converter object: [class LibreOfficeConverter]

    The engine of [@matbee/libreoffice-converter] is not part of the
    repository: what it answers is given by the class [Engine] below.
    The caller's progress callback is taken to return normally; the
    calls it receives are logged. *)

Module Wrapper.

Record LoadProgress := Progress {
  phase : string;
  percent : number;
  message : string;
}.

(** The options [new WorkerBrowserConverter({...})] is given. *)
Record engine_config := EngineConfig {
  sofficeJs : string;
  sofficeWasm : string;
  sofficeData : string;
  sofficeWorkerJs : string;
  browserWorkerJs : string;
  verbose : bool;
}.

Class Engine := {
  (* [new WorkerBrowserConverter(config)] returns ([false]: it throws) *)
  engine_constructs : engine_config → bool;
  (* what [initialize()] reports to [onProgress], and whether it resolves *)
  engine_startup : engine_config → list LoadProgress * bool;
  (* [convert(data, {outputFormat: 'pdf', inputFormat}, name)]: the data and
     the MIME type of the result, [None] when it rejects *)
  engine_convert : engine_config → bytes → string → string → option (bytes * string);
  (* [destroy()] resolves *)
  engine_destroy : engine_config → bool;
}.

(** An engine object: the how-manieth the page built, and its options. *)
Record handle := Handle {
  serial : nat;
  config : engine_config;
}.

Record LibreOfficeConverter := Instance {
  converter : option handle;
  initialized : bool;
  initializing : bool;
  basePath : string;
}.

(** A [File]: its name, and its bytes ([None] when [arrayBuffer()] rejects). *)
Record File := {
  file_name : string;
  file_buffer : option bytes;
}.

Record Blob := {
  blob_data : bytes;
  blob_type : string;
}.

(** The page around one converter object: the object, the browser, for
    every engine built whether the [progressCallback] variable of the call
    that built it is still set, and the calls the caller's callback got. *)
Record page := Page {
  this : LibreOfficeConverter;
  window : browser;
  listening : list bool;
  delivered : list LoadProgress;
}.

(** [s.toLowerCase()] on character codes below 256. *)
Definition lower_char (c : ascii) : ascii :=
  let n := Ascii.N_of_ascii c in
  if ((65 <=? n) && (n <=? 90) || (192 <=? n) && (n <=? 222) && negb (n =? 215))%N
  then Ascii.ascii_of_N (n + 32)
  else c.

Fixpoint toLowerCase (s : string) : string :=
  match s with
  | EmptyString => EmptyString
  | String c s' => String (lower_char c) (toLowerCase s')
  end.

(** [s.split(sep)] for a separator of one character: the first segment
    and the segments after it. *)
Fixpoint split_at (sep : ascii) (s : string) : string * list string :=
  match s with
  | EmptyString => (EmptyString, [])
  | String c s' =>
      let '(segment, rest) := split_at sep s' in
      if decide (c = sep) then (EmptyString, segment :: rest)
      else (String c segment, rest)
  end.

Definition split (sep : ascii) (s : string) : list string :=
  let '(segment, rest) := split_at sep s in segment :: rest.

Fixpoint free_of (sep : ascii) (s : string) : bool :=
  match s with
  | EmptyString => true
  | String c s' => if decide (c = sep) then false else free_of sep s'
  end.

(** [file.name.split('.').pop()?.toLowerCase() || ''] *)
Definition input_format (name : string) : string :=
  match last (split "." name) with
  | Some segment => toLowerCase segment
  | None => ""
  end.

(** [Math.round(x)]: the nearest integer, the upper one of two that are
    equally near. *)
Definition Math_round (x : number) : number :=
  match x with
  | Dyadic m e =>
      if (0 <=? e)%Z then Dyadic (m * 2 ^ e) 0
      else Dyadic ((2 * m + 2 ^ (- e)) / 2 ^ (1 - e)) 0
  | NaN | PlusInfinity | MinusInfinity => x
  end.

(** The integer a number is, if it is one. *)
Definition as_integer (x : number) : option Z :=
  match x with
  | Dyadic m e =>
      if (0 <=? e)%Z then Some (m * 2 ^ e)%Z
      else if (m mod 2 ^ (- e) =? 0)%Z then Some (m / 2 ^ (- e))%Z
      else None
  | NaN | PlusInfinity | MinusInfinity => None
  end.

(** [`${x}`]: an integer of at most [2^53] in size is spelled with all
    its digits. *)
Definition Number_toString `{Host} (x : number) : string :=
  match x with
  | NaN => "NaN"
  | PlusInfinity => "Infinity"
  | MinusInfinity => "-Infinity"
  | Dyadic _ _ =>
      match as_integer x with
      | Some z => if (Z.abs z <=? 2 ^ 53)%Z then pretty z else Number_toString_other x
      | None => Number_toString_other x
      end
  end.

Inductive entry :=
| AlreadyInitialized
| MustWait
| Entered.

(** How a call of [initialize] that runs alone ends: it returns, it
    throws, or it polls [initializing] for ever. *)
Inductive initialize_outcome :=
| Resolved
| Rejected (e : error)
| Polling.

Section Methods.
Context `{Host} `{Engine}.
Variable net : string → option response.

(** [new LibreOfficeConverter(basePath)] *)
Definition new_converter (basePath : option string) : LibreOfficeConverter :=
  Instance None false false
    (match basePath with
     | Some p => if String.eqb p "" then LIBREOFFICE_LOCAL_PATH else p
     | None => LIBREOFFICE_LOCAL_PATH
     end).

Definition set_this (f : LibreOfficeConverter → LibreOfficeConverter) (p : page) : page :=
  Page (f (this p)) (window p) (listening p) (delivered p).

Definition set_initializing (b : bool) (o : LibreOfficeConverter) : LibreOfficeConverter :=
  Instance (converter o) (initialized o) b (basePath o).

Definition set_initialized (b : bool) (o : LibreOfficeConverter) : LibreOfficeConverter :=
  Instance (converter o) b (initializing o) (basePath o).

Definition set_converter (c : option handle) (o : LibreOfficeConverter)
  : LibreOfficeConverter :=
  Instance c (initialized o) (initializing o) (basePath o).

(** [progressCallback?.(progress)] *)
Definition deliver (progressCallback : bool) (progress : LoadProgress) (p : page) : page :=
  if progressCallback
  then Page (this p) (window p) (listening p) (delivered p ++ [progress])
  else p.

(** What the callback is shown of an engine report: its phase and
    percentage, under the message
    [`Loading conversion engine (${Math.round(info.percent)}%)...`]. *)
Definition shown (info : LoadProgress) : LoadProgress :=
  Progress (phase info) (percent info)
    ("Loading conversion engine ("
       +:+ Number_toString (Math_round (percent info)) +:+ "%)...").

Definition loading : LoadProgress :=
  Progress "loading" (integer 0) "Loading conversion engine...".
Definition ready : LoadProgress :=
  Progress "ready" (integer 100) "Conversion engine ready!".

(** The [onProgress] handed to the engine, called with [info]. *)
Definition onProgress_of (progressCallback : bool) (info : LoadProgress) (p : page) : page :=
  if progressCallback && negb (initialized (this p))
  then deliver true (shown info) p
  else p.

(** The engine with serial number [k] reports [info] at some later time. *)
Definition late_report (k : nat) (info : LoadProgress) (p : page) : page :=
  match listening p !! k with
  | Some progressCallback => onProgress_of progressCallback info p
  | None => p
  end.

(** [initialize] up to its first [await]. *)
Definition enter (onProgress : bool) (p : page) : entry * page :=
  if initialized (this p) then (AlreadyInitialized, p)
  else if initializing (this p) then (MustWait, p)
  else (Entered,
        deliver onProgress loading (set_this (set_initializing true) p)).

(** [await getReconstructedFileUrl(this.basePath, fileName)] *)
Definition resolve_asset (fileName : string) : M page string :=
  λ p, let '(result, w) :=
         getReconstructedFileUrl net (basePath (this p)) fileName (window p) in
       (result, Page (this p) w (listening p) (delivered p)).

(** [this.converter = new WorkerBrowserConverter({...})] *)
Definition construct (onProgress : bool) (sofficeWasmUrl sofficeDataUrl : string)
  : M page handle :=
  λ p, let b := basePath (this p) in
       let options :=
         EngineConfig (b +:+ "soffice.js") sofficeWasmUrl sofficeDataUrl
           (b +:+ "soffice.worker.js") (b +:+ "browser.worker.global.js") false in
       if engine_constructs options then
         let h := Handle (length (listening p)) options in
         (Returns h,
          Page (set_converter (Some h) (this p)) (window p)
            (listening p ++ [onProgress]) (delivered p))
       else (Throws (Failure "WorkerBrowserConverter"), p).

(** [await this.converter.initialize()] and the lines after it, up to the
    end of the [try] block. *)
Definition startup (onProgress : bool) (h : handle) : M page unit :=
  λ p, let '(reports, resolves) := engine_startup (config h) in
       let p := foldl (λ p info, onProgress_of onProgress info p) p reports in
       if resolves then
         let p := set_this (set_initialized true) p in
         let p := deliver onProgress ready p in
         (Returns (),
          Page (this p) (window p) (<[serial h := false]> (listening p)) (delivered p))
       else (Throws (Failure "initialize"), p).

(** The [finally] block. *)
Definition leave (p : page) : page := set_this (set_initializing false) p.

(** [initialize(onProgress)], run with nothing else in between;
    [onProgress] says whether a callback was passed. *)
Definition initialize (onProgress : bool) (p : page) : initialize_outcome * page :=
  match enter onProgress p with
  | (AlreadyInitialized, p) => (Resolved, p)
  | (MustWait, p) => (Polling, p)
  | (Entered, p) =>
      let '(result, p) :=
        (let* sofficeWasmUrl := resolve_asset "soffice.wasm.gz" in
         let* sofficeDataUrl := resolve_asset "soffice.data.gz" in
         let* h := construct onProgress sofficeWasmUrl sofficeDataUrl in
         startup onProgress h) p in
      match result with
      | Returns _ => (Resolved, leave p)
      | Throws e => (Rejected e, leave p)
      end
  end.

Definition isReady (p : page) : bool :=
  initialized (this p) && bool_decide (converter (this p) ≠ None).

Definition convertToPdf (file : File) : M page Blob :=
  λ p, match converter (this p) with
       | None => (Throws (Failure "Converter not initialized"), p)
       | Some h =>
           match file_buffer file with
           | None => (Throws (Failure "arrayBuffer"), p)
           | Some data =>
               let ext := input_format (file_name file) in
               match engine_convert (config h) data ext (file_name file) with
               | Some (out, mimeType) => (Returns (Build_Blob out mimeType), p)
               | None => (Throws (Failure "convert"), p)
               end
           end
       end.

Definition wordToPdf := convertToPdf.
Definition pptToPdf := convertToPdf.
Definition excelToPdf := convertToPdf.

(** The two assignments that end [destroy]. *)
Definition forget (p : page) : page :=
  set_this (λ o, set_initialized false (set_converter None o)) p.

(** [destroy()], run with nothing else in between. *)
Definition destroy (p : page) : completion unit * page :=
  match converter (this p) with
  | Some h =>
      if engine_destroy (config h) then (Returns (), forget p)
      else (Throws (Failure "destroy"), p)
  | None => (Returns (), forget p)
  end.

(** *** Calls that interleave

    A call runs from one [await] to the next without interruption; the
    requests of one asset resolution are kept together. *)

Inductive task :=
| InitStart (onProgress : bool)
| InitPoll
| InitAwaitWasm (onProgress : bool)
| InitAwaitData (onProgress : bool) (sofficeWasmUrl : string)
| InitAwaitEngine (onProgress : bool) (h : handle)
| DestroyStart
| DestroyAwait (h : handle)
| TaskResolved
| TaskRejected (e : error).

(** The piece of a call that runs next. *)
Definition task_step (t : task) (p : page) : task * page :=
  match t with
  | InitStart onProgress =>
      match enter onProgress p with
      | (AlreadyInitialized, p) => (TaskResolved, p)
      | (MustWait, p) => (InitPoll, p)
      | (Entered, p) => (InitAwaitWasm onProgress, p)
      end
  | InitPoll =>
      if initializing (this p) then (InitPoll, p) else (TaskResolved, p)
  | InitAwaitWasm onProgress =>
      match resolve_asset "soffice.wasm.gz" p with
      | (Returns sofficeWasmUrl, p) => (InitAwaitData onProgress sofficeWasmUrl, p)
      | (Throws e, p) => (TaskRejected e, leave p)
      end
  | InitAwaitData onProgress sofficeWasmUrl =>
      match (let* sofficeDataUrl := resolve_asset "soffice.data.gz" in
             construct onProgress sofficeWasmUrl sofficeDataUrl) p with
      | (Returns h, p) => (InitAwaitEngine onProgress h, p)
      | (Throws e, p) => (TaskRejected e, leave p)
      end
  | InitAwaitEngine onProgress h =>
      match startup onProgress h p with
      | (Returns _, p) => (TaskResolved, leave p)
      | (Throws e, p) => (TaskRejected e, leave p)
      end
  | DestroyStart =>
      match converter (this p) with
      | Some h => (DestroyAwait h, p)
      | None => (TaskResolved, forget p)
      end
  | DestroyAwait h =>
      if engine_destroy (config h) then (TaskResolved, forget p)
      else (TaskRejected (Failure "destroy"), p)
  | TaskResolved => (TaskResolved, p)
  | TaskRejected e => (TaskRejected e, p)
  end.

(** The calls in flight. *)
Record system := System {
  world : page;
  tasks : list task;
}.

(** A new call of [initialize] or [destroy] is made, or one of the calls
    in flight runs its next piece. *)
Inductive sys_step : system → system → Prop :=
| step_call_initialize p ts onProgress :
    sys_step (System p ts) (System p (ts ++ [InitStart onProgress]))
| step_call_destroy p ts :
    sys_step (System p ts) (System p (ts ++ [DestroyStart]))
| step_run p ts i t :
    ts !! i = Some t →
    sys_step (System p ts)
      (System (task_step t p).2 (<[i := (task_step t p).1]> ts)).

(** A call is between setting [initializing] and the [finally] block. *)
Definition inside (t : task) : bool :=
  match t with
  | InitAwaitWasm _ | InitAwaitData _ _ | InitAwaitEngine _ _ => true
  | _ => false
  end.

Definition inside_count (ts : list task) : nat :=
  sum_list ((λ t, if inside t then 1 else 0) <$> ts).

End Methods.

(** A page with a new converter and nothing done yet. *)
Definition fresh_page `{Host} (basePath : option string) : page :=
  Page (new_converter basePath) (Browser [] []) [] [].

End Wrapper.

(** ** An engine and a page to run the converter on *)

Module DemoEngine.

(** An engine that reports twice while it starts, at 40.375 and at 89.5
    percent, and turns every file into itself, labelled as PDF. *)
Definition engine : Wrapper.Engine := {|
  Wrapper.engine_constructs := λ _, true;
  Wrapper.engine_startup := λ _,
    ([Wrapper.Progress "loading" (Dyadic 323 (-3)) "Downloading";
      Wrapper.Progress "initializing" (Dyadic 179 (-1)) "Starting"], true);
  Wrapper.engine_convert := λ _ data _ _, Some (data, "application/pdf");
  Wrapper.engine_destroy := λ _, true;
|}.

(** The same engine, except that its start is rejected. *)
Definition engine_that_fails : Wrapper.Engine := {|
  Wrapper.engine_constructs := λ _, true;
  Wrapper.engine_startup := λ _,
    ([Wrapper.Progress "loading" (integer 40) "Downloading"], false);
  Wrapper.engine_convert := λ _ data _ _, Some (data, "application/pdf");
  Wrapper.engine_destroy := λ _, true;
|}.

Definition page0 : Wrapper.page := Wrapper.fresh_page (H := Demo.host) None.

Definition report : Wrapper.LoadProgress :=
  Wrapper.Progress "loading" (integer 95) "Late".

Definition letter : Wrapper.File :=
  {| Wrapper.file_name := "Letter.DOCX"; Wrapper.file_buffer := Some Demo.seven_bytes |}.

(** A manifest file holding the number 0. *)
Definition fs_zero : fs :=
  Fs (<["/srv/public/chunks-manifest.json" := [x30]]> Demo.disk0) [].

(** A manifest file holding an object with an entry. *)
Definition fs_entry : fs :=
  Fs (<["/srv/public/chunks-manifest.json" := [x42]]> Demo.disk0) [].

(** A manifest whose entry for [a.bin] is negative, and a host whose
    parser reads it from the text [N] and [null] from the text [n]. *)
Definition negative_entry : json := JObj {[ "a.bin" := JNum (-1) ]}.

Definition host_negative : Host := {|
  PUBLIC_DIR := "/srv/public";
  DIST_URL := "/";
  JSON_parse := λ text,
    match text with
    | [x] =>
        if Byte.eqb x x4e then Some negative_entry
        else if Byte.eqb x x6e then Some JNull
        else None
    | _ => None
    end;
  JSON_stringify := Demo.stringify;
  ToNumber_other := λ _, IsNaN;
  prototype_keys := Demo.some_prototype_keys;
  Number_toString_other := λ _, "?";
|}.

Definition net_negative : string → option response :=
  Demo.table_net [("/chunks-manifest.json", Response true (Some [x4e]))].

Definition net_null : string → option response :=
  Demo.table_net [("/chunks-manifest.json", Response true (Some [x6e]))].

End DemoEngine.

(** * Properties *)

(** ** Strings and paths *)

Section StringFacts.

Lemma str_app_cons (c : ascii) (s t : string) : String c s +:+ t = String c (s +:+ t).
Proof. reflexivity. Qed.

Lemma str_app_nil (t : string) : "" +:+ t = t.
Proof. reflexivity. Qed.

Lemma startsWith_app (p s : string) : Str.startsWith (p +:+ s) p = true.
Proof.
  induction p as [|c p IH]; [by destruct s|].
  rewrite str_app_cons. simpl. by rewrite decide_True.
Qed.

Lemma substring_app (p s : string) : Str.substring (p +:+ s) (String.length p) = s.
Proof. induction p as [|c p IH]; [by destruct s|]. by rewrite str_app_cons. Qed.

Lemma startsWith_inv (s p : string) :
  Str.startsWith s p = true → s = p +:+ Str.substring s (String.length p).
Proof.
  revert s. induction p as [|c p IH]; intros s Hs.
  - by destruct s.
  - destruct s as [|d s]; [done|]. cbn [Str.startsWith] in Hs.
    destruct (decide (c = d)) as [->|]; [|done].
    rewrite str_app_cons. simpl. f_equal. by apply IH.
Qed.

Lemma startsWith_false (s p : string) :
  Str.startsWith s p = false → ∀ r, s ≠ p +:+ r.
Proof. intros Hs r ->. by rewrite startsWith_app in Hs. Qed.

Lemma str_length_app (s t : string) :
  String.length (s +:+ t) = String.length s + String.length t.
Proof. induction s; rewrite ?str_app_cons, ?str_app_nil; simpl; congruence. Qed.

Lemma str_app_neq_self (s t : string) : t ≠ "" → s +:+ t ≠ s.
Proof.
  intros Ht Heq. apply (f_equal String.length) in Heq. rewrite str_length_app in Heq.
  destruct t; [done|]. simpl in Heq. lia.
Qed.

Lemma str_app_assoc (s t u : string) : (s +:+ t) +:+ u = s +:+ (t +:+ u).
Proof. induction s; rewrite ?str_app_cons, ?str_app_nil; congruence. Qed.

Lemma part_suffix_inj (p : string) (a b : N) :
  p +:+ ".part" +:+ Str.of_number a = p +:+ ".part" +:+ Str.of_number b → a = b.
Proof.
  intros Heq. apply String.app_inj in Heq. apply (String.app_inj ".part") in Heq.
  by apply (inj pretty) in Heq.
Qed.

Lemma part_suffix_neq (p : string) (a : N) : p +:+ ".part" +:+ Str.of_number a ≠ p.
Proof. by apply str_app_neq_self. Qed.

Lemma relative_join `{Host} (rel : string) :
  Path.relative PUBLIC_DIR (Path.join PUBLIC_DIR rel) = rel.
Proof.
  unfold Path.relative, Path.join.
  rewrite <- (str_app_assoc PUBLIC_DIR "/" rel), startsWith_app.
  apply substring_app.
Qed.

End StringFacts.

(** ** Properties of objects *)

Section ObjectFacts.
Context `{Host}.

Lemma get_prop_own props k v :
  props !! k = Some v → Js.get_prop (JObj props) k = Js.Found (Some v).
Proof. intros Hk. unfold Js.get_prop. cbn [Js.own_prop]. by rewrite Hk. Qed.

Lemma get_prop_insert props k v :
  Js.get_prop (JObj (<[k := v]> props)) k = Js.Found (Some v).
Proof. apply get_prop_own, lookup_insert_eq. Qed.

Lemma has_key_elem_of keys k : Js.has_key keys k = true ↔ k ∈ keys.
Proof.
  unfold Js.has_key. rewrite existsb_exists. split.
  - intros (x & Hx & Heq). apply String.eqb_eq in Heq as ->. by apply list_elem_of_In.
  - intros Hk. exists k. split; [by apply list_elem_of_In|apply String.eqb_refl].
Qed.

End ObjectFacts.

(** ** Chunk arithmetic *)

Section ChunkFacts.
Local Open Scope N_scope.

Lemma ceil_div_bounds (size m : N) :
  0 < m → 0 < size →
  (ceil_div size m - 1) * m < size ∧ size ≤ ceil_div size m * m.
Proof.
  intros Hm Hs. unfold ceil_div.
  pose proof (N.div_mod (size + m - 1) m) as Hdm.
  pose proof (N.mod_lt (size + m - 1) m) as Hlt.
  assert (1 ≤ (size + m - 1) / m) as Hq by (apply N.div_le_lower_bound; lia).
  set (q := (size + m - 1) / m) in *. set (r := (size + m - 1) mod m) in *.
  assert (q = (q - 1) + 1) as Hq' by lia.
  set (q' := q - 1) in *. rewrite Hq' in Hdm |- *.
  replace (q' + 1 - 1) with q' by lia.
  specialize (Hdm ltac:(lia)). specialize (Hlt ltac:(lia)). nia.
Qed.

Lemma ceil_div_unique (size m n : N) :
  0 < m → (n - 1) * m < size → size ≤ n * m → 0 < n → ceil_div size m = n.
Proof.
  intros Hm Hlo Hhi Hn. unfold ceil_div. symmetry.
  assert (n = (n - 1) + 1) as Hq' by lia.
  set (q' := n - 1) in *. rewrite Hq' in Hhi |- *. clearbody q'. clear Hq' Hn.
  apply (N.div_unique _ _ _ (size - 1 - m * q')); nia.
Qed.

Lemma ceil_div_pos (size m : N) : 0 < m → m < size → 1 < ceil_div size m.
Proof.
  intros Hm Hs. destruct (ceil_div_bounds size m) as [_ Hhi]; [lia..|]. nia.
Qed.

Lemma subarray_chunk (buffer : bytes) (m i : N) :
  subarray buffer (i * m) (N.min (i * m + m) (N.of_nat (length buffer)))
  = take (N.to_nat m) (drop (N.to_nat (i * m)) buffer).
Proof.
  unfold subarray.
  destruct (decide (i * m + m ≤ N.of_nat (length buffer))) as [Hle|Hgt].
  - f_equal. lia.
  - rewrite (take_ge _ (N.to_nat m)) by (rewrite length_drop; lia).
    apply take_ge. rewrite length_drop. lia.
Qed.

Lemma subarray_length_le (buffer : bytes) (m start size : N) :
  N.of_nat (length (subarray buffer start (N.min (start + m) size))) ≤ m.
Proof. unfold subarray. rewrite length_take. lia. Qed.

Lemma chunk_length (m : N) (data : bytes) (i : N) :
  let size := N.of_nat (length data) in
  N.of_nat (length (subarray data (i * m) (N.min (i * m + m) size)))
  = N.min m (size - i * m).
Proof. cbn zeta. unfold subarray. rewrite length_take, length_drop. lia. Qed.

End ChunkFacts.

(** ** The chunk loop of the Splitter *)

Section WriteFacts.

Lemma apply_writes_other (ws : list (string * bytes)) (d : gmap string bytes) p :
  p ∉ ws.*1 → apply_writes ws d !! p = d !! p.
Proof.
  revert d. induction ws as [|[q b] ws IH]; intros d Hp; [done|].
  rewrite fmap_cons, not_elem_of_cons in Hp. destruct Hp as [Hne Hp].
  cbn. unfold apply_writes in IH. rewrite IH by done. by rewrite lookup_insert_ne.
Qed.

Lemma apply_writes_elem (ws : list (string * bytes)) (d : gmap string bytes) p b :
  NoDup ws.*1 → (p, b) ∈ ws → apply_writes ws d !! p = Some b.
Proof.
  revert d. induction ws as [|[q c] ws IH]; intros d Hnd Hin.
  - by apply elem_of_nil in Hin.
  - rewrite fmap_cons, NoDup_cons in Hnd. destruct Hnd as [Hq Hnd].
    apply elem_of_cons in Hin as [[= -> ->]|Hin]; cbn.
    + fold (apply_writes ws (<[q:=c]> d)).
      rewrite apply_writes_other by done. apply lookup_insert_eq.
    + by apply IH.
Qed.

Lemma apply_writes_inv (ws : list (string * bytes)) (d : gmap string bytes) p b :
  apply_writes ws d !! p = Some b → (p, b) ∈ ws ∨ d !! p = Some b.
Proof.
  revert d. induction ws as [|[q c] ws IH]; intros d Hl; [by right|].
  cbn in Hl. apply IH in Hl as [Hin|Hl]; [left; by right|].
  destruct (decide (q = p)) as [->|Hne].
  - rewrite lookup_insert_eq in Hl. injection Hl as ->. left. by left.
  - rewrite lookup_insert_ne in Hl by done. by right.
Qed.

Lemma apply_writes_is_Some (ws : list (string * bytes)) (d : gmap string bytes) p :
  is_Some (d !! p) → is_Some (apply_writes ws d !! p).
Proof.
  revert d. induction ws as [|[q c] ws IH]; intros d Hl; [done|].
  cbn. apply IH. destruct (decide (q = p)) as [->|Hne].
  - rewrite lookup_insert_eq. eauto.
  - by rewrite lookup_insert_ne.
Qed.

Lemma write_chunks_run (m : N) filePath buffer size remaining i s :
  write_chunks m filePath buffer size remaining i s
  = (Returns (),
     let ws := chunk_writes m filePath buffer size remaining i in
     Fs (apply_writes ws (disk s)) (oplog s ++ write_ops ws)).
Proof.
  revert i s. induction remaining as [|r IH]; intros i s; cbn.
  - unfold ret. rewrite app_nil_r. by destruct s.
  - unfold bind, Fs.writeFileSync. rewrite IH. cbn. by rewrite <- List.app_assoc.
Qed.

Lemma chunk_writes_lookup (m : N) filePath buffer size remaining i (j : nat) :
  j < remaining →
  chunk_writes m filePath buffer size remaining i !! j
  = Some (chunkPath filePath (i + N.of_nat j),
          subarray buffer ((i + N.of_nat j) * m)
            (N.min ((i + N.of_nat j) * m + m) size)).
Proof.
  revert i j. induction remaining as [|r IH]; intros i j Hj; [lia|].
  destruct j as [|j]; cbn.
  - by rewrite N.add_0_r.
  - rewrite IH by lia. by replace (i + 1 + N.of_nat j)%N with (i + N.pos (Pos.of_succ_nat j))%N by lia.
Qed.

Lemma chunk_writes_length (m : N) filePath buffer size remaining i :
  length (chunk_writes m filePath buffer size remaining i) = remaining.
Proof. revert i. induction remaining; intros; cbn; auto. Qed.

Lemma chunk_writes_paths (m : N) filePath buffer size remaining i :
  (chunk_writes m filePath buffer size remaining i).*1
  = (λ k : nat, filePath +:+ ".part" +:+ Str.of_number (N.of_nat k))
      <$> seq (S (N.to_nat i)) remaining.
Proof.
  revert i. induction remaining as [|r IH]; intros i; [done|].
  cbn. rewrite IH. f_equal.
  - unfold chunkPath. do 3 f_equal. lia.
  - by replace (N.to_nat (i + 1)) with (S (N.to_nat i)) by lia.
Qed.

Lemma chunk_writes_NoDup (m : N) filePath buffer size remaining i :
  NoDup (chunk_writes m filePath buffer size remaining i).*1.
Proof.
  rewrite chunk_writes_paths. apply NoDup_fmap_2; [|apply NoDup_seq].
  intros a b Hab. apply part_suffix_inj in Hab. lia.
Qed.

Lemma chunk_writes_small (m : N) filePath buffer size remaining i p b :
  (p, b) ∈ chunk_writes m filePath buffer size remaining i →
  (N.of_nat (length b) ≤ m)%N.
Proof.
  intros Hin. apply list_elem_of_lookup in Hin as [j Hj].
  rewrite chunk_writes_lookup in Hj
    by (apply lookup_lt_Some in Hj; by rewrite chunk_writes_length in Hj).
  injection Hj as _ <-. apply subarray_length_le.
Qed.

Lemma chunk_writes_not_original (m : N) filePath buffer size remaining i :
  filePath ∉ (chunk_writes m filePath buffer size remaining i).*1.
Proof.
  rewrite chunk_writes_paths. intros Hin. apply list_elem_of_fmap in Hin as (k & Hk & _).
  symmetry in Hk. by apply part_suffix_neq in Hk.
Qed.

(** Glued in order, the chunks of [rounds] rounds are the first
    [rounds * m] bytes of the buffer. *)
Lemma chunk_writes_concat (m : N) filePath (buffer : bytes) remaining i :
  concat (chunk_writes m filePath buffer (N.of_nat (length buffer)) remaining i).*2
  = take (remaining * N.to_nat m) (drop (N.to_nat (i * m)) buffer).
Proof.
  revert i. induction remaining as [|r IH]; intros i; [done|].
  cbn [chunk_writes fmap list_fmap concat snd]. rewrite IH, subarray_chunk.
  replace (N.to_nat ((i + 1) * m)) with (N.to_nat (i * m) + N.to_nat m) by lia.
  rewrite <- drop_drop, take_take_drop. f_equal.
Qed.

Lemma chunks_rebuild (m : N) filePath (buffer : bytes) :
  (0 < m)%N →
  let size := N.of_nat (length buffer) in
  concat (chunk_writes m filePath buffer size (N.to_nat (ceil_div size m)) 0).*2
  = buffer.
Proof.
  intros Hm size. unfold size. rewrite chunk_writes_concat. cbn [N.mul N.to_nat drop].
  apply take_ge. destruct buffer as [|b buffer]; [cbn; lia|].
  destruct (ceil_div_bounds (N.of_nat (length (b :: buffer))) m) as [_ Hhi];
    [done|cbn [length]; lia|].
  lia.
Qed.

End WriteFacts.

(** ** One file, and the loop over the files *)

Section SplitterFacts.
Context `{Host}.
Variable m : N.

Lemma split_file_manifest manifest changed s :
  split_file m MANIFEST_FILE (manifest, changed) s = (Returns (manifest, changed), s).
Proof. unfold split_file. by rewrite decide_True. Qed.

Lemma split_file_missing filePath manifest changed s :
  filePath ≠ MANIFEST_FILE → disk s !! filePath = None →
  split_file m filePath (manifest, changed) s = (Throws (ENOENT filePath), s).
Proof.
  intros Hne Hl. unfold split_file. rewrite decide_False by done.
  unfold bind, Fs.statSync_size. by rewrite Hl.
Qed.

Lemma split_file_small filePath data manifest changed s :
  filePath ≠ MANIFEST_FILE → disk s !! filePath = Some data →
  (N.of_nat (length data) ≤ m)%N →
  split_file m filePath (manifest, changed) s = (Returns (manifest, changed), s).
Proof.
  intros Hne Hl Hsz. unfold split_file. rewrite decide_False by done.
  unfold bind, Fs.statSync_size. rewrite Hl.
  by destruct (N.ltb_spec m (N.of_nat (length data))); [lia|].
Qed.

Lemma split_file_big filePath data manifest changed s :
  filePath ≠ MANIFEST_FILE → disk s !! filePath = Some data →
  (m < N.of_nat (length data))%N →
  split_file m filePath (manifest, changed) s
  = match Js.set_prop manifest (relativePathOf filePath)
            (Z.of_N (ceil_div (N.of_nat (length data)) m)) with
    | Js.Assigned manifest' => (Returns (manifest', true), after_split m filePath data s)
    | Js.AssignThrows e => (Throws e, s)
    end.
Proof.
  intros Hne Hl Hsz. unfold split_file. rewrite decide_False by done.
  unfold bind at 1. unfold Fs.statSync_size. rewrite Hl.
  destruct (N.ltb_spec m (N.of_nat (length data))); [|lia].
  unfold bind at 1. unfold Fs.readFileSync. rewrite Hl.
  destruct (Js.set_prop _ _ _) as [manifest'|e]; [|done].
  unfold bind at 1. rewrite write_chunks_run. cbn zeta.
  unfold bind, Fs.unlinkSync. cbn [disk oplog].
  destruct (apply_writes_is_Some
              (chunk_writes m filePath data (N.of_nat (length data))
                 (N.to_nat (ceil_div (N.of_nat (length data)) m)) 0)
              (disk s) filePath) as [x Hx]; [by rewrite Hl|].
  rewrite Hx. unfold ret, after_split. by rewrite <- List.app_assoc.
Qed.

Lemma after_split_lookup filePath data s p b :
  disk (after_split m filePath data s) !! p = Some b →
  p ≠ filePath ∧ ((N.of_nat (length b) ≤ m)%N ∨ disk s !! p = Some b).
Proof.
  unfold after_split. cbn [disk]. intros Hl.
  destruct (decide (p = filePath)) as [->|Hne]; [by rewrite lookup_delete_eq in Hl|].
  split; [done|]. rewrite lookup_delete_ne in Hl by done.
  apply apply_writes_inv in Hl as [Hin|Hl]; [left|by right].
  by eapply chunk_writes_small.
Qed.


(** The chunk of round [j] is on the disk after the split. *)
Lemma after_split_chunk filePath data s (j : nat) :
  j < N.to_nat (ceil_div (N.of_nat (length data)) m) →
  disk (after_split m filePath data s) !! chunkPath filePath (N.of_nat j)
  = Some (subarray data (N.of_nat j * m)
            (N.min (N.of_nat j * m + m) (N.of_nat (length data)))).
Proof.
  intros Hj. unfold after_split. cbn [disk].
  rewrite lookup_delete_ne by (intros Heq; symmetry in Heq; by apply part_suffix_neq in Heq).
  apply apply_writes_elem; [apply chunk_writes_NoDup|].
  apply list_elem_of_lookup. exists j. by rewrite chunk_writes_lookup.
Qed.

Lemma load_manifest_run s : ∃ manifest, load_manifest s = (Returns manifest, s).
Proof.
  unfold load_manifest, bind, Fs.existsSync, try_catch, Fs.readFileSync.
  case_bool_decide as Hex; [|by eexists].
  destruct Hex as [text Ht]. rewrite Ht.
  destruct (JSON_parse text); by eexists.
Qed.


(** A file that is not split leaves everything as it was. *)
Lemma for_files_noop files vars s :
  (∀ p, p ∈ files → p ≠ MANIFEST_FILE →
        ∃ data, disk s !! p = Some data ∧ (N.of_nat (length data) ≤ m)%N) →
  for_files m files vars s = (Returns vars, s).
Proof.
  induction files as [|f files IH]; intros Hsmall; [done|].
  destruct vars as [manifest changed]. cbn [for_files]. unfold bind at 1.
  destruct (decide (f = MANIFEST_FILE)) as [->|Hne].
  - rewrite split_file_manifest. apply IH. intros p Hp. apply Hsmall. by right.
  - destruct (Hsmall f) as (data & Hl & Hsz); [by left|done|].
    rewrite (split_file_small _ data) by done.
    apply IH. intros p Hp. apply Hsmall. by right.
Qed.

(** When the loop is through, no file above the threshold is left. *)
Lemma for_files_small files vars s vars' s' :
  small_or_pending m files s →
  for_files m files vars s = (Returns vars', s') →
  small_or_pending m [] s'.
Proof.
  revert vars s. induction files as [|f files IH]; intros [manifest changed] s Hinv Hrun.
  { cbn in Hrun. unfold ret in Hrun. injection Hrun as _ <-. exact Hinv. }
  cbn [for_files] in Hrun. unfold bind at 1 in Hrun.
  destruct (decide (f = MANIFEST_FILE)) as [->|Hne].
  { rewrite split_file_manifest in Hrun. eapply IH; [|done].
    intros p data Hl Hp. destruct (Hinv p data Hl Hp) as [?|Hin]; [by left|].
    apply elem_of_cons in Hin as [->|Hin]; [done|by right]. }
  destruct (disk s !! f) as [data|] eqn:Hf;
    [|by rewrite split_file_missing in Hrun].
  destruct (decide (m < N.of_nat (length data))%N) as [Hbig|Hsmall].
  - rewrite (split_file_big _ data) in Hrun by done.
    destruct (Js.set_prop _ _ _) as [manifest'|e]; [|done].
    eapply IH; [|done]. intros p b Hl Hp.
    apply after_split_lookup in Hl as [Hpf [Hsz|Hl]]; [by left|].
    destruct (Hinv p b Hl Hp) as [?|Hin]; [by left|].
    apply elem_of_cons in Hin as [->|Hin]; [done|by right].
  - rewrite (split_file_small _ data) in Hrun by (done || lia).
    eapply IH; [|done]. intros p b Hl Hp.
    destruct (Hinv p b Hl Hp) as [?|Hin]; [by left|].
    apply elem_of_cons in Hin as [->|Hin]; [|by right].
    left. rewrite Hf in Hl. injection Hl as <-. lia.
Qed.

(** The log only grows; it grows exactly when a file is split, and then
    [changed] is set and an original was removed. *)
Lemma for_files_log files manifest changed s manifest' changed' s' :
  for_files m files (manifest, changed) s = (Returns (manifest', changed'), s') →
  ∃ ops, oplog s' = oplog s ++ ops
         ∧ ((ops = [] ∧ s' = s ∧ changed' = changed ∧ manifest' = manifest)
            ∨ (changed' = true ∧ ∃ p, OpUnlink p ∈ ops)).
Proof.
  revert manifest changed s.
  induction files as [|f files IH]; intros manifest changed s Hrun.
  { cbn in Hrun. unfold ret in Hrun. injection Hrun as <- <- <-. exists []. rewrite app_nil_r. split; [done|]. by left. }
  cbn [for_files] in Hrun. unfold bind at 1 in Hrun.
  destruct (decide (f = MANIFEST_FILE)) as [->|Hne].
  { rewrite split_file_manifest in Hrun. by apply IH. }
  destruct (disk s !! f) as [data|] eqn:Hf;
    [|by rewrite split_file_missing in Hrun].
  destruct (decide (m < N.of_nat (length data))%N) as [Hbig|Hsmall].
  - rewrite (split_file_big _ data) in Hrun by done.
    destruct (Js.set_prop _ _ _) as [manifest1|e]; [|done].
    apply IH in Hrun as (ops & Hlog & Hops).
    unfold after_split in Hlog. cbn [oplog] in Hlog. rewrite <- List.app_assoc in Hlog.
    eexists. split; [exact Hlog|]. right.
    destruct Hops as [(-> & _ & -> & _)|[-> [p Hp]]].
    + split; [done|]. exists f. rewrite app_nil_r. set_solver.
    + split; [done|]. exists p. set_solver.
  - rewrite (split_file_small _ data) in Hrun by (done || lia). by apply IH.
Qed.

Lemma chunk_writes_permitted files f (data : bytes) size remaining i :
  f ∈ files → f ≠ MANIFEST_FILE →
  Forall (permitted_op m files) (write_ops (chunk_writes m f data size remaining i)).
Proof.
  intros Hf Hne. revert i. induction remaining as [|r IH]; intros i; [constructor|].
  cbn. constructor; [|apply IH]. right. exists f, (i + 1)%N.
  split_and!; [done..| lia |apply subarray_length_le].
Qed.

Lemma for_files_permitted files0 files vars s :
  (∀ p, p ∈ files → p ∈ files0) →
  ∃ ops, oplog (for_files m files vars s).2 = oplog s ++ ops
         ∧ Forall (permitted_op m files0) ops.
Proof.
  revert vars s. induction files as [|f files IH]; intros [manifest changed] s Hsub.
  { exists []. cbn. by rewrite app_nil_r. }
  assert (∀ p, p ∈ files → p ∈ files0) as Hsub' by (intros p Hp; apply Hsub; by right).
  cbn [for_files]. unfold bind at 1.
  destruct (decide (f = MANIFEST_FILE)) as [->|Hne].
  { rewrite (split_file_manifest manifest changed s). by apply IH. }
  destruct (disk s !! f) as [data|] eqn:Hf.
  2:{ rewrite (split_file_missing f manifest changed s) by done.
      exists []. cbn. by rewrite app_nil_r. }
  destruct (decide (m < N.of_nat (length data))%N) as [Hbig|Hsmall].
  - rewrite (split_file_big _ data) by done.
    destruct (Js.set_prop _ _ _) as [manifest'|e].
    2:{ exists []. cbn. by rewrite app_nil_r. }
    destruct (IH (manifest', true) (after_split m f data s) Hsub') as (ops & Hlog & Hops).
    unfold after_split in Hlog at 2. cbn [oplog] in Hlog. rewrite <- List.app_assoc in Hlog.
    eexists. split; [exact Hlog|].
    apply Forall_app. split; [|done]. apply Forall_app. split.
    + apply chunk_writes_permitted; [apply Hsub; by left|done].
    + constructor; [|constructor]. split; [apply Hsub; by left|done].
  - rewrite (split_file_small _ data) by (done || lia). by apply IH.
Qed.



End SplitterFacts.

Section ObjectManifest.
Context `{Host}.
Variable m : N.



End ObjectManifest.

(** ** The Splitter: what the claims say *)

Section SplitterClaims.
Context `{Host}.


(** C6.  After a run that went through, with a walk that listed every
    file of the disk, no file but the manifest is larger than the
    threshold; a second run, over any listing of files that exist then,
    goes through and leaves the disk and the log exactly as they were:
    nothing is split again and the manifest file is not written.  This
    holds for every threshold [m], so for [splitFiles], which runs at
    [MAX_SIZE]. *)
Theorem second_run_changes_nothing (m : N) tree0 s0 s1 tree1 :
  (∀ p, is_Some (disk s0 !! p) → p ∈ getAllFiles PUBLIC_DIR tree0 []) →
  splitFilesWith m (Some tree0) s0 = Finished s1 →
  (∀ p, p ∈ getAllFiles PUBLIC_DIR tree1 [] → is_Some (disk s1 !! p)) →
  small_or_pending m [] s1
  ∧ splitFilesWith m (Some tree1) s1 = Finished s1.
Proof.
  intros Hcover Hrun Hlisted.
  assert (small_or_pending m [] s1) as Hsmall.
  { unfold splitFilesWith, splitFiles_body in Hrun.
    destruct (load_manifest_run s0) as [manifest Hload].
    unfold bind at 1 in Hrun. rewrite Hload in Hrun. unfold bind at 1 in Hrun.
    destruct (for_files m _ _ s0) as [[vars|e] s'] eqn:Hloop; [|done].
    apply for_files_small in Hloop; [|intros p data Hp _; right; apply Hcover; eauto].
    destruct vars as [manifest' [|]]; cbn [snd fst] in Hrun.
    - unfold Fs.writeFileSync in Hrun. injection Hrun as <-.
      intros p data Hp Hne. cbn [disk] in Hp.
      rewrite lookup_insert_ne in Hp by done. by apply Hloop.
    - unfold ret in Hrun. by injection Hrun as <-. }
  split; [done|].
  unfold splitFilesWith, splitFiles_body.
  destruct (load_manifest_run s1) as [manifest Hload].
  unfold bind at 1. rewrite Hload. unfold bind at 1.
  rewrite for_files_noop; [done|].
  intros p Hp Hne. destruct (Hlisted p Hp) as [data Hdata].
  exists data. split; [done|].
  destruct (Hsmall p data Hdata Hne) as [?|Hin]; [done|]. by apply elem_of_nil in Hin.
Qed.

(** C7.  In a run that went through, at any threshold [m], the manifest
    file is written if and only if some original was split (and so
    removed) in that run; when none was, the disk and the log are exactly
    as before. *)
Theorem manifest_written_iff_split (m : N) tree s s' :
  splitFilesWith m (Some tree) s = Finished s' →
  ∃ ops, oplog s' = oplog s ++ ops
         ∧ ((∃ data, OpWrite MANIFEST_FILE data ∈ ops) ↔ (∃ p, OpUnlink p ∈ ops))
         ∧ ((∀ p, OpUnlink p ∉ ops) → s' = s).
Proof.
  intros Hrun. unfold splitFilesWith, splitFiles_body in Hrun.
  destruct (load_manifest_run s) as [manifest Hload].
  unfold bind at 1 in Hrun. rewrite Hload in Hrun. unfold bind at 1 in Hrun.
  destruct (for_files m _ _ s) as [[[manifest' changed']|e] s1] eqn:Hloop; [|done].
  apply for_files_log in Hloop as (ops & Hlog & [(-> & -> & -> & ->)|[-> [p Hp]]]);
    cbn [snd fst] in Hrun.
  - unfold ret in Hrun. injection Hrun as <-. exists []. split; [done|].
    split; [|done]. split; intros [x Hx]; by apply elem_of_nil in Hx.
  - unfold Fs.writeFileSync in Hrun. injection Hrun as <-. cbn [oplog].
    exists (ops ++ [OpWrite MANIFEST_FILE (JSON_stringify manifest')]).
    rewrite Hlog, <- List.app_assoc. split; [done|]. split.
    + split; intros _; [exists p|exists (JSON_stringify manifest')]; set_solver.
    + intros Hno. destruct (Hno p). set_solver.
Qed.


End SplitterClaims.

(** ** The Reconstructor *)

Section ReconstructorFacts.
Context `{Host}.
Variable net : string → option response.

Lemma resolve_never_throws basePath fileName w :
  ∃ url w', getReconstructedFileUrl net basePath fileName w = (Returns url, w').
Proof.
  unfold getReconstructedFileUrl, try_catch.
  match goal with |- context [match ?b w with _ => _ end] => destruct (b w) as [[url|e] w'] end;
    unfold ret; eauto.
Qed.

Lemma resolve_manifest_fails basePath fileName w :
  manifest_fetch_fails net →
  getReconstructedFileUrl net basePath fileName w
  = (Returns (basePath +:+ fileName), asked_manifest w).
Proof.
  unfold manifest_fetch_fails, manifestUrl. intros Hfail.
  unfold getReconstructedFileUrl, try_catch, bind at 1, fetch.
  destruct (net _) as [[status content]|]; [|done].
  destruct status; cbn [negb ok]; [|done].
  destruct Hfail as [?|Hfail]; [done|]. cbn [body] in Hfail.
  unfold bind, response_json. cbn [body].
  destruct content as [text|]; [|done]. by rewrite Hfail.
Qed.

Lemma resolve_manifest_served basePath fileName doc w :
  manifest_served net doc →
  getReconstructedFileUrl net basePath fileName w
  = let originalUrl := basePath +:+ fileName in
    match Js.get_prop doc (manifest_key originalUrl) with
    | Js.LookupThrows => (Returns originalUrl, asked_manifest w)
    | Js.Found totalChunks =>
        if Js.truthy totalChunks then
          match assemble net originalUrl (default JNull totalChunks) (asked_manifest w) with
          | (Returns url, w') => (Returns url, w')
          | (Throws _, w') => (Returns originalUrl, w')
          end
        else (Returns originalUrl, asked_manifest w)
    | Js.Inherited => createObjectURL [] (asked_manifest w)
    end.
Proof.
  intros (text & Hnet & Hparse). unfold manifestUrl in Hnet.
  unfold getReconstructedFileUrl, try_catch, bind at 1, fetch. rewrite Hnet.
  cbn [negb ok]. unfold bind at 1, response_json. cbn [body]. rewrite Hparse.
  unfold ret at 1. cbn zeta.
  destruct (Js.get_prop _ _) as [v| |]; [|done..].
  destruct (Js.truthy v); [|done]. done.
Qed.

Lemma fetch_chunks_ok originalUrl (bs : list bytes) i chunks w :
  (∀ (j : nat) b, bs !! j = Some b →
     net (originalUrl +:+ ".part" +:+ Str.of_number (i + N.of_nat j + 1))
     = Some (Response true (Some b))) →
  fetch_chunks net originalUrl (length bs) i chunks w
  = (Returns (chunks ++ bs),
     Browser (requests w
              ++ ((λ k : nat, originalUrl +:+ ".part" +:+ Str.of_number (N.of_nat k))
                    <$> seq (S (N.to_nat i)) (length bs)))
             (object_urls w)).
Proof.
  revert i chunks w. induction bs as [|b bs IH]; intros i chunks w Hnet.
  { cbn. unfold ret. rewrite !app_nil_r. by destruct w. }
  cbn [length fetch_chunks]. unfold bind at 1, fetch.
  pose proof (Hnet 0 b eq_refl) as H0. rewrite N.add_0_r in H0. rewrite H0.
  cbn [negb ok]. unfold bind at 1, response_blob. cbn [body]. unfold ret at 1.
  rewrite IH.
  - cbn [requests object_urls seq fmap list_fmap].
    rewrite <- !List.app_assoc. cbn [app].
    replace (N.of_nat (S (N.to_nat i))) with (i + 1)%N by lia.
    by replace (N.to_nat (i + 1)) with (S (N.to_nat i)) by lia.
  - intros j c Hj. specialize (Hnet (S j) c Hj).
    by replace (i + 1 + N.of_nat j + 1)%N with (i + N.of_nat (S j) + 1)%N by lia.
Qed.

Lemma fetch_chunks_fail originalUrl remaining i chunks w (k : nat) :
  k < remaining →
  chunk_fetch_fails net (originalUrl +:+ ".part" +:+ Str.of_number (i + N.of_nat k + 1)) →
  ∃ e w', fetch_chunks net originalUrl remaining i chunks w = (Throws e, w')
          ∧ object_urls w' = object_urls w.
Proof.
  revert i chunks w k. induction remaining as [|r IH]; intros i chunks w k Hk Hfail; [lia|].
  cbn [fetch_chunks]. unfold bind at 1, fetch.
  destruct (net (originalUrl +:+ ".part" +:+ Str.of_number (i + 1))) as [[status content]|] eqn:Hres;
    [|by eexists _, _].
  destruct status; cbn [negb ok]; [|by eexists _, _].
  unfold bind at 1, response_blob. cbn [body].
  destruct content as [data|]; [|by eexists _, _].
  unfold ret at 1. destruct k as [|k].
  - unfold chunk_fetch_fails in Hfail. rewrite N.add_0_r, Hres in Hfail.
    by destruct Hfail.
  - destruct (IH (i + 1)%N (chunks ++ [data])
                (Browser (requests w ++ [originalUrl +:+ ".part" +:+ Str.of_number (i + 1)])
                   (object_urls w)) k) as (e & w' & Hrun & Hurls); [lia| |].
    + by replace (i + 1 + N.of_nat k + 1)%N with (i + N.of_nat (S k) + 1)%N by lia.
    + rewrite Hrun. by eexists _, _.
Qed.

Lemma object_url_inj : Inj (=) (=) object_url.
Proof.
  intros a b Hab. unfold object_url in Hab.
  apply String.app_inj in Hab. by apply (inj pretty) in Hab.
Qed.

Lemma resolve_fresh_object_url rq (blobs : list bytes) (b : bytes) :
  resolve_object_url (Browser rq (blobs ++ [b])) (object_url (length blobs)) = Some b.
Proof.
  unfold resolve_object_url. cbn [object_urls].
  destruct (list_find _ _) as [[i k]|] eqn:Hfind.
  - apply list_find_Some in Hfind as (_ & Hk & _). apply object_url_inj in Hk as ->.
    by rewrite list_lookup_middle.
  - apply list_find_None in Hfind. rewrite Forall_forall in Hfind.
    destruct (Hfind (length blobs)); [|done].
    apply elem_of_seq. rewrite length_app. cbn. lia.
Qed.

Lemma stripped_key_manifest_key url : stripped_key url (manifest_key url).
Proof.
  unfold stripped_key, manifest_key.
  destruct (Str.startsWith url DIST_URL) eqn:Hpre.
  - exists (Str.substring url (String.length DIST_URL)).
    split; [left; by apply startsWith_inv|].
    destruct (Str.startsWith _ "/") eqn:Hslash.
    + left. by apply startsWith_inv in Hslash.
    + right. split; [by apply startsWith_false|done].
  - exists url. split; [right; split; [by apply startsWith_false|done]|].
    destruct (Str.startsWith url "/") eqn:Hslash.
    + left. by apply startsWith_inv in Hslash.
    + right. split; [by apply startsWith_false|done].
Qed.

Lemma stripped_key_unique url key1 key2 :
  stripped_key url key1 → stripped_key url key2 → key1 = key2.
Proof.
  intros (r1 & Hr1 & Hk1) (r2 & Hr2 & Hk2).
  assert (r1 = r2) as <-.
  { destruct Hr1 as [->|[Hno ->]], Hr2 as [Heq|[Hno' ->]]; try done.
    - by apply String.app_inj in Heq.
    - by destruct (Hno' r1).
    - by destruct (Hno r2). }
  destruct Hk1 as [->|[Hno ->]], Hk2 as [Heq|[Hno' ->]]; try done.
  - by apply String.app_inj in Heq.
  - by destruct (Hno' key1).
  - by destruct (Hno key2).
Qed.

End ReconstructorFacts.

Section ReconstructorClaims.
Context `{Host}.


(** C3.  [getReconstructedFileUrl] always returns a URL, whatever the
    network answers; and when the manifest cannot be had (the request
    fails, the status is not a success, the body cannot be read or is
    not JSON) it returns [basePath + fileName], having requested the
    manifest only and registered no blob. *)
Theorem resolve_never_raises_and_falls_back net basePath fileName w :
  (∃ url w', getReconstructedFileUrl net basePath fileName w = (Returns url, w'))
  ∧ (manifest_fetch_fails net →
     getReconstructedFileUrl net basePath fileName w
     = (Returns (basePath +:+ fileName),
        Browser (requests w ++ [manifestUrl]) (object_urls w))).
Proof.
  split; [apply resolve_never_throws|]. intros Hfail.
  by rewrite resolve_manifest_fails.
Qed.

(** C4.  With a manifest entry of [n] chunks, if the fetch of some chunk
    [k] in [1..n] fails (request error, non-success status or unreadable
    body), the direct URL [basePath + fileName] is returned and no blob
    is registered: nothing assembled from the chunks before [k] gets
    out. *)
Theorem failed_chunk_falls_back net basePath fileName doc (n k : nat) w :
  manifest_served net doc →
  Js.get_prop doc (manifest_key (basePath +:+ fileName))
  = Js.Found (Some (JNum (Z.of_nat n))) →
  1 ≤ k ≤ n →
  chunk_fetch_fails net
    ((basePath +:+ fileName) +:+ ".part" +:+ Str.of_number (N.of_nat k)) →
  ∃ w', getReconstructedFileUrl net basePath fileName w
        = (Returns (basePath +:+ fileName), w')
        ∧ object_urls w' = object_urls w.
Proof.
  intros Hdoc Hget Hk Hfail.
  rewrite (resolve_manifest_served _ _ _ doc) by done. cbn zeta. rewrite Hget.
  cbn [Js.truthy]. destruct (Z.eqb_spec (Z.of_nat n) 0) as [|_]; [lia|]. cbn [negb].
  unfold assemble, bind at 1, iterations. cbn [default from_option id Js.ToNumber].
  unfold ret at 1. cbv beta. rewrite Nat2Z.id. unfold bind at 1.
  destruct (fetch_chunks_fail net (basePath +:+ fileName) n 0 [] (asked_manifest w) (k - 1))
    as (e & w' & Hrun & Hurls); [lia| |].
  { by replace (0 + N.of_nat (k - 1) + 1)%N with (N.of_nat k) by lia. }
  rewrite Hrun. by exists w'.
Qed.

(** C5.  The key looked up in the manifest is [basePath + fileName]
    without the prefix [DIST_URL], when it starts with it, and then
    without one leading ['/'], when one is there; if the lookup of that
    key, which goes on to the prototypes of the manifest, gives
    [undefined] or a falsy value, [basePath + fileName] is returned
    after the manifest request alone: no chunk is requested and no blob
    registered. *)
Theorem absent_or_falsy_entry_returns_direct_url
    net basePath fileName doc key totalChunks w :
  manifest_served net doc →
  stripped_key (basePath +:+ fileName) key →
  Js.get_prop doc key = Js.Found totalChunks →
  Js.truthy totalChunks = false →
  key = manifest_key (basePath +:+ fileName)
  ∧ getReconstructedFileUrl net basePath fileName w
    = (Returns (basePath +:+ fileName),
       Browser (requests w ++ [manifestUrl]) (object_urls w)).
Proof.
  intros Hdoc Hkey Hget Hfalsy.
  assert (key = manifest_key (basePath +:+ fileName)) as Heq
    by (eapply stripped_key_unique; [done|apply stripped_key_manifest_key]).
  split; [done|]. subst key.
  rewrite (resolve_manifest_served _ _ _ doc) by done. cbn zeta.
  by rewrite Hget, Hfalsy.
Qed.

End ReconstructorClaims.

(** ** Splitter and Reconstructor together *)

Section RoundTrip.
Context `{Host}.

Lemma part_names_length p n : length (part_names p n) = n.
Proof. unfold part_names. by rewrite length_fmap, length_seq. Qed.

Lemma part_names_lookup p n (j : nat) :
  j < n → part_names p n !! j = Some (p +:+ ".part" +:+ Str.of_number (N.of_nat j + 1)).
Proof.
  intros Hj. unfold part_names. rewrite list_lookup_fmap, lookup_seq_lt by done.
  by replace (N.of_nat j + 1)%N with (N.of_nat (1 + j)) by lia.
Qed.




(** C1.  A file [C] larger than a positive threshold [m] is split: chunk
    [i] (stored as [.part(i+1)]) holds the bytes of [C] from [i * m] up
    to [min ((i+1) * m) (len C)], for every [i] below the recorded chunk
    count.  And whenever the manifest served has, under the key of the
    requested URL, the value the Splitter recorded, and each chunk URL
    answers with the bytes of the chunk file of the same number, the
    Reconstructor returns an object URL whose blob is [C], byte for
    byte. *)
Theorem split_then_reconstruct_roundtrip (m : N) (C : bytes) filePath props changed s :
  (0 < m)%N →
  (m < N.of_nat (length C))%N →
  filePath ≠ MANIFEST_FILE →
  disk s !! filePath = Some C →
  ∃ manifest' s',
    split_file m filePath (JObj props, changed) s = (Returns (manifest', true), s')
    ∧ (∀ i : nat, i < N.to_nat (ceil_div (N.of_nat (length C)) m) →
         disk s' !! chunkPath filePath (N.of_nat i)
         = Some (subarray C (N.of_nat i * m)
                   (N.min (N.of_nat i * m + m) (N.of_nat (length C)))))
    ∧ ∀ net basePath fileName doc w,
        manifest_served net doc →
        Js.get_prop doc (manifest_key (basePath +:+ fileName))
        = Js.get_prop manifest' (relativePathOf filePath) →
        (∀ i data, disk s' !! chunkPath filePath i = Some data →
           net ((basePath +:+ fileName) +:+ ".part" +:+ Str.of_number (i + 1))
           = Some (Response true (Some data))) →
        ∃ url w',
          getReconstructedFileUrl net basePath fileName w = (Returns url, w')
          ∧ resolve_object_url w' url = Some C.
Proof.
  intros Hm Hbig Hne HC.
  set (n := ceil_div (N.of_nat (length C)) m).
  eexists _, _. rewrite (split_file_big _ _ C) by done. cbn [Js.set_prop].
  split; [done|]. split; [intros i Hi; by apply after_split_chunk|].
  intros net basePath fileName doc w Hdoc Hget Hnet.
  rewrite get_prop_insert in Hget. fold n in Hget.
  rewrite (resolve_manifest_served _ _ _ doc) by done. cbn zeta. rewrite Hget.
  pose proof (ceil_div_pos _ _ Hm Hbig) as Hn. fold n in Hn.
  cbn [Js.truthy]. destruct (Z.eqb_spec (Z.of_N n) 0) as [|_]; [lia|]. cbn [negb].
  unfold assemble, bind at 1, iterations. cbn [default from_option id Js.ToNumber].
  unfold ret at 1. cbv beta.
  replace (Z.to_nat (Z.of_N n)) with (N.to_nat n) by lia. unfold bind at 1.
  set (ws := chunk_writes m filePath C (N.of_nat (length C)) (N.to_nat n) 0).
  assert (length ws.*2 = N.to_nat n) as Hlen
    by (unfold ws; by rewrite length_fmap, chunk_writes_length).
  rewrite <- Hlen. rewrite fetch_chunks_ok.
  - unfold createObjectURL. eexists _, _. split; [done|]. cbn [object_urls app].
    unfold ws, n. rewrite chunks_rebuild by done. apply resolve_fresh_object_url.
  - intros j b Hj. rewrite N.add_0_l. apply Hnet.
    assert (j < N.to_nat n) as Hjn by (rewrite <- Hlen; by eapply lookup_lt_Some).
    rewrite list_lookup_fmap in Hj. unfold ws in Hj.
    rewrite chunk_writes_lookup in Hj by done. cbn in Hj. injection Hj as <-.
    rewrite after_split_chunk by done. by rewrite N.add_0_l.
Qed.

End RoundTrip.

(** ** The converter singleton *)

Section SingletonClaims.
Context `{Host}.

Lemma step_keeps_singleton c r b σ :
  singleton_is r b σ →
  singleton_is r b (step c σ).2
  ∧ (∀ basePath, c = CallGet basePath → (step c σ).1 = Some r).
Proof.
  intros [Hinst Hbase].
  assert (r < length (heap σ)) as Hr.
  { destruct (heap σ !! r) eqn:Hl; [by eapply lookup_lt_Some|done]. }
  destruct c as [bp|bp|this result|this]; cbn.
  - unfold getLibreOfficeConverter. rewrite Hinst. cbn. split; [done|]. by intros.
  - split; [|done]. split; [done|]. cbn. by rewrite lookup_app_l.
  - split; [|done]. split; [done|]. cbn.
    destruct (decide (this = r)) as [->|Hne].
    + rewrite list_lookup_alter_eq. destruct (heap σ !! r) as [o|]; [|done].
      cbn in *. unfold initialize_fields.
      destruct (initialized o); [done|]. by destruct result.
    + by rewrite list_lookup_alter_ne.
  - split; [|done]. split; [done|]. cbn.
    destruct (decide (this = r)) as [->|Hne].
    + rewrite list_lookup_alter_eq. by destruct (heap σ !! r) as [o|].
    + by rewrite list_lookup_alter_ne.
Qed.

Lemma run_keeps_singleton calls r b σ :
  singleton_is r b σ →
  Forall (λ r', r' = r) (run calls σ).1 ∧ singleton_is r b (run calls σ).2.
Proof.
  revert σ. induction calls as [|c calls IH]; intros σ Hσ; [by split|].
  cbn [run]. destruct (step_keeps_singleton c r b σ Hσ) as [Hσ' Hget].
  destruct (step c σ) as [res σ'] eqn:Hstep. cbn [fst snd] in *.
  destruct (IH σ' Hσ') as [Hrs Hfin].
  destruct (run calls σ') as [rs σ'']. cbn [fst snd] in *.
  split; [|done].
  destruct c; try done. destruct res as [r'|]; [|done].
  apply Forall_cons. split; [|done].
  specialize (Hget _ eq_refl). by injection Hget.
Qed.

(** C10.  Once [getLibreOfficeConverter] has created the instance (the
    module variable was still [null]), every later call returns that
    same object, whatever base path it is given and whatever else is
    called in between; the object's [basePath] stays the one the first
    call chose ([basePath || LIBREOFFICE_LOCAL_PATH]). *)
Theorem singleton_ignores_later_base_paths first calls σ :
  converterInstance σ = None →
  let '(r, σ1) := getLibreOfficeConverter first σ in
  let '(rs, σ2) := run calls σ1 in
  Forall (λ r', r' = r) rs
  ∧ converterInstance σ2 = Some r
  ∧ basePath <$> heap σ2 !! r
    = Some (match first with
            | Some p => if String.eqb p "" then LIBREOFFICE_LOCAL_PATH else p
            | None => LIBREOFFICE_LOCAL_PATH
            end).
Proof.
  intros Hnull. unfold getLibreOfficeConverter. rewrite Hnull.
  set (σ1 := ModuleState _ _).
  assert (singleton_is (length (heap σ))
            (basePath (new_LibreOfficeConverter first)) σ1) as Hσ1.
  { split; [done|]. cbn. by rewrite list_lookup_middle. }
  destruct (run_keeps_singleton calls _ _ σ1 Hσ1) as [Hrs [Hinst Hbase]].
  destruct (run calls σ1) as [rs σ2]. cbn [fst snd] in *. done.
Qed.

End SingletonClaims.

(** ** The statements at work on the small instance *)

Section Scenarios.
Import Demo.
Local Existing Instance host.

Lemma demo_run : splitFilesWith 4 (Some tree0) fs0 = Finished fs1.
Proof. vm_compute. reflexivity. Qed.

(** Split on the disk, served by a static server that also has a manifest
    the toy codec can read, and put together again. *)
Example demo_roundtrip :
  let served := <["/srv/public/chunks-manifest.json" := [x41]]> (disk fs1) in
  let '(result, w) :=
    getReconstructedFileUrl (static_server served) "/" "a.bin" browser0 in
  result = Returns "blob:0" ∧ resolve_object_url w "blob:0" = Some ten_bytes.
Proof. by vm_compute. Qed.

Lemma split_then_reconstruct_roundtrip_witness :
  ∃ manifest' s',
    split_file 4 "/srv/public/a.bin" (JObj ∅, false) fs0 = (Returns (manifest', true), s')
    ∧ (∀ i : nat, i < N.to_nat (ceil_div (N.of_nat (length ten_bytes)) 4) →
         disk s' !! chunkPath "/srv/public/a.bin" (N.of_nat i)
         = Some (subarray ten_bytes (N.of_nat i * 4)
                   (N.min (N.of_nat i * 4 + 4) (N.of_nat (length ten_bytes)))))
    ∧ ∀ net basePath fileName doc w,
        manifest_served net doc →
        Js.get_prop doc (manifest_key (basePath +:+ fileName))
        = Js.get_prop manifest' (relativePathOf "/srv/public/a.bin") →
        (∀ i data, disk s' !! chunkPath "/srv/public/a.bin" i = Some data →
           net ((basePath +:+ fileName) +:+ ".part" +:+ Str.of_number (i + 1))
           = Some (Response true (Some data))) →
        ∃ url w',
          getReconstructedFileUrl net basePath fileName w = (Returns url, w')
          ∧ resolve_object_url w' url = Some ten_bytes.
Proof.
  apply (split_then_reconstruct_roundtrip 4 ten_bytes "/srv/public/a.bin" ∅ false fs0).
  - reflexivity.
  - reflexivity.
  - by vm_compute.
  - reflexivity.
Defined.


(** Three chunks announced and the second one answers 404: the direct URL
    comes back and no blob was registered. *)
Lemma failed_chunk_falls_back_witness :
  ∃ w', getReconstructedFileUrl net_gap "/" "a.bin" browser0 = (Returns "/a.bin", w')
        ∧ object_urls w' = [].
Proof.
  apply (failed_chunk_falls_back net_gap "/" "a.bin" manifest_a 3 2 browser0).
  - by exists [x41].
  - reflexivity.
  - lia.
  - left. reflexivity.
Defined.

(** The manifest has no entry for [b.bin], and the document [0] has none
    for anything. *)
Lemma absent_or_falsy_entry_returns_direct_url_witness :
  ("lib/b.bin" = manifest_key "/lib/b.bin"
   ∧ getReconstructedFileUrl net_gap "/lib/" "b.bin" browser0
     = (Returns "/lib/b.bin", Browser ["/chunks-manifest.json"] []))
  ∧ ("a.bin" = manifest_key "/a.bin"
     ∧ getReconstructedFileUrl
         (table_net [("/chunks-manifest.json", Response true (Some [x30]))])
         "/" "a.bin" browser0
       = (Returns "/a.bin", Browser ["/chunks-manifest.json"] [])).
Proof.
  split.
  - refine (absent_or_falsy_entry_returns_direct_url
              net_gap "/lib/" "b.bin" manifest_a "lib/b.bin" None browser0 _ _ _ _).
    + by exists [x41].
    + exact (stripped_key_manifest_key "/lib/b.bin").
    + reflexivity.
    + reflexivity.
  - refine (absent_or_falsy_entry_returns_direct_url
              _ "/" "a.bin" (JNum 0) "a.bin" None browser0 _ _ _ _).
    + by exists [x30].
    + exact (stripped_key_manifest_key "/a.bin").
    + reflexivity.
    + reflexivity.
Defined.

Lemma second_run_changes_nothing_witness :
  small_or_pending 4 [] fs1 ∧ splitFilesWith 4 (Some tree1) fs1 = Finished fs1.
Proof.
  apply (second_run_changes_nothing 4 tree0 fs0 fs1 tree1).
  - intros p [data Hp]. revert p data Hp.
    change (map_Forall (λ p _, p ∈ getAllFiles PUBLIC_DIR tree0 []) (disk fs0)).
    apply (bool_decide_unpack _). by vm_compute.
  - exact demo_run.
  - apply Forall_forall. apply (bool_decide_unpack _). by vm_compute.
Defined.

Lemma manifest_written_iff_split_witness :
  ∃ ops, oplog fs1 = oplog fs0 ++ ops
         ∧ ((∃ data, OpWrite MANIFEST_FILE data ∈ ops) ↔ (∃ p, OpUnlink p ∈ ops))
         ∧ ((∀ p, OpUnlink p ∉ ops) → fs1 = fs0).
Proof.
  apply (manifest_written_iff_split 4 tree0 fs0 fs1). exact demo_run.
Defined.



(** The first call picks ["/wasm/"]; a later call with ["/other/"], and one
    with no argument, get the same object, whose base path is still
    ["/wasm/"]. *)
Lemma singleton_ignores_later_base_paths_witness :
  let '(r, σ1) := getLibreOfficeConverter (Some "/wasm/") module0 in
  let '(rs, σ2) :=
    run [CallGet (Some "/other/"); CallInitialize 0 EngineReady;
         CallNew (Some "/mine/"); CallDestroy 0; CallGet None] σ1 in
  Forall (λ r', r' = r) rs
  ∧ converterInstance σ2 = Some r
  ∧ basePath <$> heap σ2 !! r = Some "/wasm/".
Proof.
  apply (singleton_ignores_later_base_paths (Some "/wasm/")
           [CallGet (Some "/other/"); CallInitialize 0 EngineReady;
            CallNew (Some "/mine/"); CallDestroy 0; CallGet None] module0).
  reflexivity.
Defined.

End Scenarios.

(** * Further properties *)

(** ** The walk of the public directory *)

Section WalkFacts.

Lemma dirent_nested_ind (P : dirent → Prop) :
  P RegularFile →
  (∀ entries, Forall (λ e, P e.2) entries → P (Directory entries)) →
  ∀ node, P node.
Proof.
  intros Hfile Hdir. fix IH 1. intros [|entries]; [exact Hfile|].
  apply Hdir. induction entries as [|[name node] entries IHentries]; constructor.
  - apply IH.
  - exact IHentries.
Qed.

Lemma getAllFiles_cons dir e entries fileList :
  getAllFiles dir (e :: entries) fileList
  = getAllFiles dir entries (visit (Path.join dir e.1) e.2 fileList).
Proof. reflexivity. Qed.

Lemma getAllFiles_acc_entries entries :
  Forall (λ e, ∀ fp fl, visit fp e.2 fl = fl ++ visit fp e.2 []) entries →
  ∀ dir fl, getAllFiles dir entries fl = fl ++ getAllFiles dir entries [].
Proof.
  induction 1 as [|e entries He _ IH]; intros dir fl.
  - cbn. by rewrite app_nil_r.
  - rewrite !getAllFiles_cons, IH, He, (IH dir (visit _ _ [])).
    by rewrite List.app_assoc.
Qed.

Lemma visit_acc node : ∀ fp fl, visit fp node fl = fl ++ visit fp node [].
Proof.
  induction node as [|entries IH] using dirent_nested_ind; intros fp fl; [done|].
  apply (getAllFiles_acc_entries entries IH fp fl).
Qed.

Lemma getAllFiles_acc dir entries fl :
  getAllFiles dir entries fl = fl ++ getAllFiles dir entries [].
Proof.
  apply getAllFiles_acc_entries. apply Forall_forall. intros e _. apply visit_acc.
Qed.

Lemma getAllFiles_unfold dir e entries :
  getAllFiles dir (e :: entries) []
  = visit (Path.join dir e.1) e.2 [] ++ getAllFiles dir entries [].
Proof. by rewrite getAllFiles_cons, getAllFiles_acc. Qed.

Lemma elem_of_getAllFiles dir entries p :
  p ∈ getAllFiles dir entries [] ↔
  ∃ e, e ∈ entries ∧ p ∈ visit (Path.join dir e.1) e.2 [].
Proof.
  induction entries as [|e entries IH].
  - cbn. split; [by intros ?%elem_of_nil|]. by intros (e & ?%elem_of_nil & _).
  - rewrite getAllFiles_unfold, elem_of_app, IH. split.
    + intros [Hp|(e' & He' & Hp)]; [exists e|exists e']; split; try done; [by left|by right].
    + intros (e' & [->|He']%elem_of_cons & Hp); [by left|right; by exists e'].
Qed.

Lemma visit_count node : ∀ fp, length (visit fp node []) = count_regular node.
Proof.
  induction node as [|entries IH] using dirent_nested_ind; intros fp; [done|].
  change (visit fp (Directory entries) []) with (getAllFiles fp entries []).
  cbn [count_regular]. induction IH as [|e entries He _ IHentries]; [done|].
  rewrite getAllFiles_unfold, length_app, He, IHentries. done.
Qed.

Lemma str_app_nil_r (s : string) : s +:+ "" = s.
Proof. induction s; rewrite ?str_app_cons, ?str_app_nil; congruence. Qed.

Lemma visit_below node : ∀ fp p, p ∈ visit fp node [] → below fp p.
Proof.
  induction node as [|entries IH] using dirent_nested_ind; intros fp p Hp.
  - cbn in Hp. apply list_elem_of_singleton in Hp as ->. exists "".
    by rewrite str_app_nil_r; auto.
  - change (visit fp (Directory entries) []) with (getAllFiles fp entries []) in Hp.
    apply elem_of_getAllFiles in Hp as (e & He & Hp).
    rewrite Forall_forall in IH.
    destruct (IH e He _ _ Hp) as (tail & -> & Htail).
    exists ("/" +:+ e.1 +:+ tail). split; [|right; eauto].
    unfold Path.join. by rewrite !str_app_assoc.
Qed.

Lemma segment_eq (n1 n2 t1 t2 : string) :
  no_slash n1 = true → no_slash n2 = true →
  (t1 = "" ∨ ∃ rest, t1 = "/" +:+ rest) →
  (t2 = "" ∨ ∃ rest, t2 = "/" +:+ rest) →
  n1 +:+ t1 = n2 +:+ t2 → n1 = n2.
Proof.
  revert n2. induction n1 as [|c n1 IH]; intros n2 H1 H2 Ht1 Ht2 Heq.
  - rewrite str_app_nil in Heq. destruct n2 as [|d n2]; [done|].
    rewrite str_app_cons in Heq. cbn in H2.
    destruct Ht1 as [->|[rest ->]]; [done|].
    rewrite str_app_cons, str_app_nil in Heq. injection Heq as <- _.
    by rewrite decide_True in H2.
  - rewrite str_app_cons in Heq. cbn in H1.
    destruct (decide (c = "/"%char)) as [|Hc]; [done|].
    destruct n2 as [|d n2].
    + rewrite str_app_nil in Heq. destruct Ht2 as [->|[rest ->]]; [done|].
      rewrite str_app_cons, str_app_nil in Heq. by injection Heq as -> _.
    + rewrite str_app_cons in Heq. injection Heq as -> Heq. cbn in H2.
      rewrite decide_False in H2 by done. f_equal. by eapply IH.
Qed.

Lemma below_siblings dir n1 n2 p :
  no_slash n1 = true → no_slash n2 = true →
  below (Path.join dir n1) p → below (Path.join dir n2) p → n1 = n2.
Proof.
  intros H1 H2 (t1 & -> & Ht1) (t2 & Heq & Ht2).
  unfold Path.join in Heq. rewrite !str_app_assoc in Heq.
  apply String.app_inj in Heq. apply (String.app_inj "/") in Heq.
  exact (segment_eq n1 n2 t1 t2 H1 H2 Ht1 Ht2 Heq).
Qed.

Lemma visit_NoDup node : hygienic node = true → ∀ fp, NoDup (visit fp node []).
Proof.
  induction node as [|entries IH] using dirent_nested_ind; intros Hh fp.
  - cbn. apply NoDup_singleton.
  - change (visit fp (Directory entries) []) with (getAllFiles fp entries []).
    cbn in Hh. apply andb_prop in Hh as [Hnames Hsub].
    apply bool_decide_eq_true in Hnames. rewrite forallb_forall in Hsub.
    induction IH as [|e entries He _ IHentries]; [constructor|].
    rewrite fmap_cons, NoDup_cons in Hnames. destruct Hnames as [Hfresh Hnames].
    rewrite getAllFiles_unfold. apply NoDup_app. split_and!.
    + apply He. destruct (andb_prop _ _ (Hsub e (or_introl eq_refl))) as [_ ?]. done.
    + intros p Hp Hp'. apply elem_of_getAllFiles in Hp' as (e' & He' & Hp').
      apply visit_below in Hp, Hp'.
      destruct (andb_prop _ _ (Hsub e (or_introl eq_refl))) as [Hn _].
      destruct (andb_prop _ _ (Hsub e' (or_intror (proj1 (list_elem_of_In _ _) He'))))
        as [Hn' _].
      pose proof (below_siblings _ _ _ _ Hn Hn' Hp Hp') as Heq.
      apply Hfresh. rewrite Heq. by apply list_elem_of_fmap_2.
    + apply IHentries; [done|]. intros e' He'. apply Hsub. by right.
Qed.

Lemma relative_join_any (dir rel : string) :
  Path.relative dir (Path.join dir rel) = rel.
Proof.
  unfold Path.relative, Path.join.
  rewrite <- (str_app_assoc dir "/" rel), startsWith_app.
  apply substring_app.
Qed.

(** X1.  The walk keeps the list it is given in front and adds one path
    per regular file of the tree, directories adding none of their own. *)
Theorem getAllFiles_appends_regular_files dir entries fileList :
  getAllFiles dir entries fileList = fileList ++ getAllFiles dir entries []
  ∧ length (getAllFiles dir entries fileList)
    = length fileList + count_regular (Directory entries).
Proof.
  split; [apply getAllFiles_acc|].
  rewrite getAllFiles_acc, length_app. f_equal. apply (visit_count (Directory entries) dir).
Qed.

(** X2.  Every path the walk of [dir] lists lies below [dir]: joining
    [dir] and what [path.relative] makes of the path gives the path
    back. *)
Theorem listed_paths_are_below_dir dir entries p :
  p ∈ getAllFiles dir entries [] →
  Path.join dir (Path.relative dir p) = p.
Proof.
  intros Hp. apply elem_of_getAllFiles in Hp as (e & He & Hp).
  apply visit_below in Hp as (tail & -> & Htail).
  replace (Path.join dir e.1 +:+ tail) with (Path.join dir (e.1 +:+ tail))
    by (unfold Path.join; by rewrite !str_app_assoc).
  by rewrite relative_join_any.
Qed.

(** X3.  When in every directory the names are pairwise distinct and
    free of ['/'], the walk lists no path twice. *)
Theorem hygienic_tree_lists_no_path_twice dir entries :
  hygienic (Directory entries) = true →
  NoDup (getAllFiles dir entries []).
Proof. intros Hh. apply (visit_NoDup (Directory entries) Hh dir). Qed.

End WalkFacts.

(** ** More on the Splitter *)

Section SplitterMore.
Context `{Host}.
Variable m : N.

Lemma for_files_entries files props changed s manifest' changed' s' :
  for_files m files (JObj props, changed) s = (Returns (manifest', changed'), s') →
  ∃ props' ops,
    manifest' = JObj props' ∧ oplog s' = oplog s ++ ops
    ∧ ∀ k v, props !! k = Some v →
             props' !! k = Some v ∨ ∃ p, OpUnlink p ∈ ops ∧ k = relativePathOf p.
Proof.
  revert props changed s.
  induction files as [|f files IH]; intros props changed s Hrun.
  { cbn in Hrun. unfold ret in Hrun. injection Hrun as <- <- <-.
    exists props, []. rewrite app_nil_r. split_and!; [done..|]. by left. }
  cbn [for_files] in Hrun. unfold bind at 1 in Hrun.
  destruct (decide (f = MANIFEST_FILE)) as [->|Hne].
  { rewrite (split_file_manifest m (JObj props) changed s) in Hrun. exact (IH _ _ _ Hrun). }
  destruct (disk s !! f) as [data|] eqn:Hf;
    [|by rewrite (split_file_missing m f (JObj props) changed s) in Hrun].
  destruct (decide (m < N.of_nat (length data))%N) as [Hbig|Hsmall].
  - rewrite (split_file_big _ _ data) in Hrun by done. cbn [Js.set_prop] in Hrun.
    apply IH in Hrun as (props' & ops & -> & Hlog & Hkeys).
    unfold after_split in Hlog. cbn [oplog] in Hlog. rewrite <- List.app_assoc in Hlog.
    eexists props', _. split; [done|]. split; [exact Hlog|].
    intros k v Hk. destruct (decide (relativePathOf f = k)) as [<-|Hk'].
    + right. exists f. split; [set_solver|done].
    + destruct (Hkeys k v) as [?|(p & Hp & ->)]; [by rewrite lookup_insert_ne|by left|].
      right. exists p. split; [set_solver|done].
  - rewrite (split_file_small _ _ data) in Hrun by (done || lia). exact (IH _ _ _ Hrun).
Qed.

Lemma for_files_unassignable files doc changed s :
  unassignable doc = true →
  (∀ p, p ∈ files → is_Some (disk s !! p)) →
  (∀ p, p ∈ files → relativePathOf p ≠ "__proto__") →
  (some_oversized m files s →
     for_files m files (doc, changed) s = (Throws TypeError, s))
  ∧ (¬ some_oversized m files s →
     for_files m files (doc, changed) s = (Returns (doc, changed), s)).
Proof.
  intros Hdoc. induction files as [|f files IH]; intros Hex Hkey.
  { split; [|done]. intros (f & data & Hf & _). by apply elem_of_nil in Hf. }
  destruct IH as [IHbig IHsmall];
    [intros p Hp; apply Hex; by right|intros p Hp; apply Hkey; by right|].
  cbn [for_files]. unfold bind.
  destruct (decide (f = MANIFEST_FILE)) as [->|Hne].
  { rewrite (split_file_manifest m doc changed s). split; intros Hsome.
    - apply IHbig. destruct Hsome as (f & data & [->|Hf]%elem_of_cons & Hnm & Hd & Hsz);
        [done|by exists f, data].
    - apply IHsmall. intros (f & data & Hf & Hrest). apply Hsome.
      exists f, data. split; [by right|done]. }
  destruct (Hex f) as [data Hdata]; [by left|].
  destruct (decide (m < N.of_nat (length data))%N) as [Hbig|Hsmall].
  - rewrite (split_file_big _ _ data) by done.
    assert (Js.set_prop doc (relativePathOf f)
              (Z.of_N (ceil_div (N.of_nat (length data)) m))
            = Js.AssignThrows TypeError) as ->.
    { assert (relativePathOf f ≠ "__proto__") as Hf%String.eqb_neq
        by (apply Hkey; by left).
      destruct doc; try done; cbn; by rewrite Hf. }
    split; [done|]. intros Hsome. destruct Hsome. exists f, data. split; [by left|done].
  - rewrite (split_file_small _ _ data) by (done || lia). split; intros Hsome.
    + apply IHbig. destruct Hsome as (f' & data' & [->|Hf]%elem_of_cons & Hnm & Hd & Hsz).
      * rewrite Hdata in Hd. injection Hd as <-. lia.
      * by exists f', data'.
    + apply IHsmall. intros (f' & data' & Hf & Hrest). apply Hsome.
      exists f', data'. split; [by right|done].
Qed.

(** X4.  When a file larger than the threshold is split into [n] chunks,
    every chunk but the last holds exactly [m] bytes and the last holds
    the [size - (n - 1) * m] bytes that remain, at least one and at most
    [m]. *)
Theorem all_chunks_full_but_the_last filePath (data : bytes) props changed s :
  (0 < m)%N →
  (m < N.of_nat (length data))%N →
  filePath ≠ MANIFEST_FILE →
  disk s !! filePath = Some data →
  let size := N.of_nat (length data) in
  let n := ceil_div size m in
  ∃ manifest' s',
    split_file m filePath (JObj props, changed) s = (Returns (manifest', true), s')
    ∧ (0 < size - (n - 1) * m ∧ size - (n - 1) * m ≤ m)%N
    ∧ ∀ i : nat, i < N.to_nat n →
        ∃ chunk,
          disk s' !! chunkPath filePath (N.of_nat i) = Some chunk
          ∧ N.of_nat (length chunk)
            = if decide (S i < N.to_nat n) then m else (size - (n - 1) * m)%N.
Proof.
  intros Hm Hbig Hne Hdata size n.
  destruct (ceil_div_bounds size m) as [Hlo Hhi]; [done|lia|]. fold n in Hlo, Hhi.
  pose proof (ceil_div_pos _ _ Hm Hbig) as Hn. fold size n in Hn.
  eexists _, _. rewrite (split_file_big _ _ data) by done. cbn [Js.set_prop].
  split; [done|]. split; [lia|].
  intros i Hi. eexists. split; [by apply after_split_chunk|].
  rewrite chunk_length. fold size. case_decide as Hlast.
  - assert ((N.of_nat i + 1) * m ≤ (n - 1) * m)%N by (apply N.mul_le_mono_r; lia). lia.
  - replace (N.of_nat i) with (n - 1)%N by lia. lia.
Qed.

(** X5.  Splitting a file changes nothing on the disk but the file
    itself and the names [<filePath>.part1] ... [<filePath>.part<n>]. *)
Theorem split_touches_only_its_own_names filePath (data : bytes) props changed s :
  (m < N.of_nat (length data))%N →
  filePath ≠ MANIFEST_FILE →
  disk s !! filePath = Some data →
  ∃ manifest' s',
    split_file m filePath (JObj props, changed) s = (Returns (manifest', true), s')
    ∧ ∀ p, p ≠ filePath →
           p ∉ part_names filePath (N.to_nat (ceil_div (N.of_nat (length data)) m)) →
           disk s' !! p = disk s !! p.
Proof.
  intros Hbig Hne Hdata.
  eexists _, _. rewrite (split_file_big _ _ data) by done. cbn [Js.set_prop].
  split; [done|]. intros p Hp Hparts. unfold after_split. cbn [disk].
  rewrite lookup_delete_ne by done. apply apply_writes_other.
  by rewrite chunk_writes_paths.
Qed.

(** X6.  A run that went through and found a manifest holding an object
    either changed nothing or wrote a manifest in which every earlier
    entry is still there, unless its key is the relative path of a file
    split in this run (whose entry is then the new one). *)
Theorem earlier_manifest_entries_survive tree s s' text props :
  disk s !! MANIFEST_FILE = Some text →
  JSON_parse text = Some (JObj props) →
  splitFilesWith m (Some tree) s = Finished s' →
  s' = s
  ∨ ∃ props' ops,
      oplog s' = oplog s ++ ops
      ∧ disk s' !! MANIFEST_FILE = Some (JSON_stringify (JObj props'))
      ∧ ∀ k v, props !! k = Some v →
               props' !! k = Some v ∨ ∃ p, OpUnlink p ∈ ops ∧ k = relativePathOf p.
Proof.
  intros Htext Hparse Hrun. unfold splitFilesWith, splitFiles_body in Hrun.
  assert (load_manifest s = (Returns (JObj props), s)) as Hload.
  { unfold load_manifest, bind, Fs.existsSync, try_catch, Fs.readFileSync.
    rewrite bool_decide_eq_true_2 by (rewrite Htext; eauto). by rewrite Htext, Hparse. }
  unfold bind at 1 in Hrun. rewrite Hload in Hrun. unfold bind at 1 in Hrun.
  destruct (for_files m _ _ s) as [[[manifest' changed']|e] s1] eqn:Hloop; [|done].
  destruct (for_files_log _ _ _ _ _ _ _ _ Hloop)
    as (ops' & Hlog' & [(-> & -> & -> & ->)|[-> _]]); cbn [snd fst] in Hrun.
  - left. unfold ret in Hrun. by injection Hrun as <-.
  - right. apply for_files_entries in Hloop as (props' & ops & -> & Hlog & Hkeys).
    unfold Fs.writeFileSync in Hrun. injection Hrun as <-. cbn [oplog disk].
    exists props', (ops ++ [OpWrite MANIFEST_FILE (JSON_stringify (JObj props'))]).
    rewrite Hlog, <- List.app_assoc. split; [done|].
    split; [apply lookup_insert_eq|].
    intros k v Hk. destruct (Hkeys k v Hk) as [?|(p & Hp & ->)]; [by left|].
    right. exists p. split; [set_solver|done].
Qed.


(** X8.  When the manifest file holds [null], a boolean, a number or a
    string and no listed file has the relative path [__proto__], the
    first file above the threshold makes the assignment to the manifest
    throw: the run leaves with [process.exit(1)] before anything is
    written or removed.  With no such file the run goes through and
    changes nothing. *)
Theorem unassignable_manifest_aborts_before_writing tree s text doc :
  disk s !! MANIFEST_FILE = Some text →
  JSON_parse text = Some doc →
  unassignable doc = true →
  (∀ p, p ∈ getAllFiles PUBLIC_DIR tree [] → is_Some (disk s !! p)) →
  (∀ p, p ∈ getAllFiles PUBLIC_DIR tree [] → relativePathOf p ≠ "__proto__") →
  (some_oversized m (getAllFiles PUBLIC_DIR tree []) s →
     splitFilesWith m (Some tree) s = Exit1 s)
  ∧ (¬ some_oversized m (getAllFiles PUBLIC_DIR tree []) s →
     splitFilesWith m (Some tree) s = Finished s).
Proof.
  intros Htext Hparse Hdoc Hex Hkey.
  assert (load_manifest s = (Returns doc, s)) as Hload.
  { unfold load_manifest, bind, Fs.existsSync, try_catch, Fs.readFileSync.
    rewrite bool_decide_eq_true_2 by (rewrite Htext; eauto). by rewrite Htext, Hparse. }
  destruct (for_files_unassignable _ doc false s Hdoc Hex Hkey) as [Hbig Hsmall].
  unfold splitFilesWith, splitFiles_body.
  split; intros Hsome; unfold bind at 1; rewrite Hload; unfold bind at 1.
  - by rewrite Hbig.
  - by rewrite Hsmall.
Qed.

(** X9.  Whatever the outcome of a run, all it did to the disk is to
    remove listed files other than the manifest, to write numbered parts
    of at most [m] bytes next to listed files, and to write the manifest
    file. *)
Theorem run_only_splits_listed_files tree s :
  ∃ ops,
    oplog (final_state (splitFilesWith m (Some tree) s)) = oplog s ++ ops
    ∧ Forall (permitted_op m (getAllFiles PUBLIC_DIR tree [])) ops.
Proof.
  unfold splitFilesWith, splitFiles_body.
  destruct (load_manifest_run s) as [manifest Hload].
  unfold bind at 1. rewrite Hload. unfold bind at 1.
  destruct (for_files_permitted m (getAllFiles PUBLIC_DIR tree [])
              (getAllFiles PUBLIC_DIR tree []) (manifest, false) s)
    as (ops & Hlog & Hops); [done|].
  destruct (for_files m _ _ s) as [[[manifest' changed']|e] s1]; cbn [snd fst] in *.
  - destruct changed'; cbn.
    + exists (ops ++ [OpWrite MANIFEST_FILE (JSON_stringify manifest')]).
      rewrite Hlog, <- List.app_assoc. split; [done|].
      apply Forall_app. split; [done|]. constructor; [by left|constructor].
    + by exists ops.
  - by exists ops.
Qed.

End SplitterMore.

(** ** More on the Reconstructor *)

Section ReconstructorMore.
Context `{Host}.
Variable net : string → option response.

Lemma fetch_chunks_frame originalUrl remaining i chunks w res w' :
  fetch_chunks net originalUrl remaining i chunks w = (res, w') →
  object_urls w' = object_urls w ∧ ∃ rq, requests w' = requests w ++ rq.
Proof.
  revert i chunks w. induction remaining as [|r IH]; intros i chunks w Hrun.
  { cbn in Hrun. unfold ret in Hrun. injection Hrun as _ <-.
    split; [done|]. exists []. by rewrite app_nil_r. }
  cbn [fetch_chunks] in Hrun. unfold bind at 1, fetch in Hrun.
  destruct (net _) as [[status content]|];
    [|injection Hrun as _ <-; cbn; eauto].
  destruct status; cbn [negb ok] in Hrun;
    [|unfold throw in Hrun; injection Hrun as _ <-; cbn; eauto].
  unfold bind at 1, response_blob in Hrun. cbn [body] in Hrun.
  destruct content as [data|];
    [|unfold throw in Hrun; injection Hrun as _ <-; cbn; eauto].
  unfold ret at 1 in Hrun. apply IH in Hrun as [-> [rq ->]].
  split; [done|]. cbn [requests]. rewrite <- List.app_assoc. eauto.
Qed.

Lemma fetch_chunks_first_fail originalUrl (k : nat) : ∀ remaining i chunks w,
  k < remaining →
  (∀ j : nat, j < k →
     ∃ b, net (originalUrl +:+ ".part" +:+ Str.of_number (i + N.of_nat j + 1))
          = Some (Response true (Some b))) →
  chunk_fetch_fails net (originalUrl +:+ ".part" +:+ Str.of_number (i + N.of_nat k + 1)) →
  ∃ e,
    fetch_chunks net originalUrl remaining i chunks w
    = (Throws e,
       Browser (requests w
                ++ ((λ k : nat, originalUrl +:+ ".part" +:+ Str.of_number (N.of_nat k))
                      <$> seq (S (N.to_nat i)) (S k)))
               (object_urls w)).
Proof.
  induction k as [|k IH]; intros remaining i chunks w Hk Hok Hfail;
    (destruct remaining as [|r]; [lia|]); cbn [fetch_chunks]; unfold bind at 1, fetch.
  - unfold chunk_fetch_fails in Hfail. rewrite N.add_0_r in Hfail.
    cbn [seq fmap list_fmap]. replace (N.of_nat (S (N.to_nat i))) with (i + 1)%N by lia.
    destruct (net _) as [[status content]|]; [|by eexists].
    destruct status; cbn [negb ok]; [|by eexists].
    destruct Hfail as [?|Hbody]; [done|]. cbn [body] in Hbody. subst content.
    unfold bind, response_blob. cbn [body]. by eexists.
  - destruct (Hok 0) as [b Hb]; [lia|]. rewrite N.add_0_r in Hb. rewrite Hb.
    cbn [negb ok]. unfold bind at 1, response_blob. cbn [body]. unfold ret at 1.
    edestruct (IH r (i + 1)%N (chunks ++ [b])) as [e Hrun]; [lia| | |].
    + intros j Hj. destruct (Hok (S j)) as [c Hc]; [lia|]. exists c.
      by replace (i + 1 + N.of_nat j + 1)%N with (i + N.of_nat (S j) + 1)%N by lia.
    + by replace (i + 1 + N.of_nat k + 1)%N with (i + N.of_nat (S k) + 1)%N by lia.
    + rewrite Hrun. exists e. cbn [requests object_urls]. f_equal. f_equal.
      rewrite <- List.app_assoc. f_equal. cbn [seq fmap list_fmap app].
      replace (N.of_nat (S (N.to_nat i))) with (i + 1)%N by lia.
      by replace (N.to_nat (i + 1)) with (S (N.to_nat i)) by lia.
Qed.

Lemma resolve_number_entry basePath fileName doc (n : Z) w :
  manifest_served net doc →
  Js.get_prop doc (manifest_key (basePath +:+ fileName)) = Js.Found (Some (JNum n)) →
  n ≠ 0%Z →
  getReconstructedFileUrl net basePath fileName w
  = match fetch_chunks net (basePath +:+ fileName) (Z.to_nat n) 0 [] (asked_manifest w) with
    | (Returns chunks, w') => createObjectURL (concat chunks) w'
    | (Throws _, w') => (Returns (basePath +:+ fileName), w')
    end.
Proof.
  intros Hdoc Hget Hn.
  rewrite (resolve_manifest_served _ _ _ doc) by done. cbn zeta. rewrite Hget.
  cbn [Js.truthy]. destruct (Z.eqb_spec n 0) as [|_]; [done|]. cbn [negb].
  unfold assemble, bind at 1, iterations. cbn [default from_option id Js.ToNumber].
  unfold ret at 1. cbv beta. unfold bind at 1.
  by destruct (fetch_chunks _ _ _ _ _ _) as [[chunks|e] w'].
Qed.

Lemma resolve_glues basePath fileName doc (bs : list bytes) w :
  manifest_served net doc →
  Js.get_prop doc (manifest_key (basePath +:+ fileName))
  = Js.Found (Some (JNum (Z.of_nat (length bs)))) →
  bs ≠ [] →
  (∀ (j : nat) b, bs !! j = Some b →
     net ((basePath +:+ fileName) +:+ ".part" +:+ Str.of_number (N.of_nat j + 1))
     = Some (Response true (Some b))) →
  getReconstructedFileUrl net basePath fileName w
  = (Returns (object_url (length (object_urls w))),
     Browser (requests w ++ manifestUrl :: part_names (basePath +:+ fileName) (length bs))
             (object_urls w ++ [concat bs])).
Proof.
  intros Hdoc Hget Hbs Hnet.
  rewrite (resolve_number_entry _ _ doc (Z.of_nat (length bs))); [|done..|].
  2:{ destruct bs; [done|cbn; lia]. }
  rewrite Nat2Z.id, fetch_chunks_ok.
  - unfold createObjectURL. cbn [requests object_urls asked_manifest app].
    by rewrite <- List.app_assoc.
  - intros j b Hj. rewrite N.add_0_l. by apply Hnet.
Qed.

Lemma resolve_object_url_app rq rq' (blobs more : list bytes) url b :
  resolve_object_url (Browser rq blobs) url = Some b →
  resolve_object_url (Browser rq' (blobs ++ more)) url = Some b.
Proof.
  unfold resolve_object_url. cbn [object_urls]. intros Hfind.
  destruct (list_find _ (seq 0 (length blobs))) as [[i k]|] eqn:Hk; [|done].
  rewrite length_app, seq_app. erewrite list_find_app_l by done.
  rewrite lookup_app_l; [done|]. by eapply lookup_lt_Some.
Qed.

Lemma assemble_frame originalUrl v w0 res w' :
  assemble net originalUrl v w0 = (res, w') →
  (∃ rq, requests w' = requests w0 ++ rq)
  ∧ (object_urls w' = object_urls w0 ∨ ∃ blob, object_urls w' = object_urls w0 ++ [blob]).
Proof.
  unfold assemble, bind at 1, iterations. intros Hrun.
  assert (∀ count,
            bind (fetch_chunks net originalUrl count 0 [])
              (λ chunks, createObjectURL (concat chunks)) w0 = (res, w') →
            (∃ rq, requests w' = requests w0 ++ rq)
            ∧ (object_urls w' = object_urls w0
               ∨ ∃ blob, object_urls w' = object_urls w0 ++ [blob])) as Hloop.
  { intros count Hbind. unfold bind in Hbind.
    destruct (fetch_chunks net originalUrl count 0 [] w0) as [[chunks|e] w1] eqn:Hfetch;
      apply fetch_chunks_frame in Hfetch as [Hurls Hrq].
    - unfold createObjectURL in Hbind. injection Hbind as _ <-. cbn. rewrite Hurls. eauto.
    - injection Hbind as _ <-. eauto. }
  destruct (Js.ToNumber v) as [n| |].
  - by apply (Hloop (Z.to_nat n)).
  - by apply (Hloop 0).
  - unfold throw in Hrun. injection Hrun as _ <-. split; [exists []; by rewrite app_nil_r|by left].
Qed.

Lemma manifest_served_or_not :
  manifest_fetch_fails net ∨ ∃ doc, manifest_served net doc.
Proof.
  unfold manifest_fetch_fails, manifest_served.
  destruct (net manifestUrl) as [[status content]|]; [|by left].
  destruct status; [|left; by left]. cbn [ok body].
  destruct content as [text|]; [|left; by right].
  destruct (JSON_parse text) as [doc|] eqn:Hparse; [|left; by right].
  right. exists doc, text. done.
Qed.

Lemma plain_path_no_slash rel : plain_path rel = true → Str.startsWith rel "/" = false.
Proof.
  destruct rel as [|c rel]; [done|]. unfold plain_path. cbn.
  destruct (decide (c = "/"%char)) as [->|Hc]; [done|].
  intros _. by rewrite decide_False by (intros Heq; by symmetry in Heq).
Qed.

(** X10.  The chunks are requested one after the other and the first one
    that fails ends the attempt: with the chunks before [k] served and
    chunk [k] failing, exactly the manifest and the parts [1..k] have
    been requested when the direct URL is returned, and nothing after
    part [k]. *)
Theorem first_failing_chunk_ends_the_requests basePath fileName doc (n k : nat) w :
  manifest_served net doc →
  Js.get_prop doc (manifest_key (basePath +:+ fileName))
  = Js.Found (Some (JNum (Z.of_nat n))) →
  1 ≤ k ≤ n →
  (∀ u, u ∈ part_names (basePath +:+ fileName) (k - 1) →
        ∃ b, net u = Some (Response true (Some b))) →
  chunk_fetch_fails net
    ((basePath +:+ fileName) +:+ ".part" +:+ Str.of_number (N.of_nat k)) →
  getReconstructedFileUrl net basePath fileName w
  = (Returns (basePath +:+ fileName),
     Browser (requests w ++ manifestUrl :: part_names (basePath +:+ fileName) k)
             (object_urls w)).
Proof.
  intros Hdoc Hget Hk Hok Hfail.
  rewrite (resolve_number_entry _ _ doc (Z.of_nat n)) by (done || lia).
  rewrite Nat2Z.id.
  destruct (fetch_chunks_first_fail (basePath +:+ fileName) (k - 1) n 0 []
              (asked_manifest w)) as [e Hrun]; [lia| | |].
  - intros j Hj. apply Hok. apply list_elem_of_lookup. exists j.
    rewrite part_names_lookup by lia. by rewrite N.add_0_l.
  - by replace (0 + N.of_nat (k - 1) + 1)%N with (N.of_nat k) by lia.
  - rewrite Hrun. cbn [requests object_urls asked_manifest].
    rewrite <- List.app_assoc. unfold part_names.
    by replace (S (k - 1)) with k by lia.
Qed.

(** X11.  Whatever the chunk URLs answer with, the blob registered is
    their bodies glued in ascending part number, and the URL returned is
    the one of that new blob. *)
Theorem chunks_are_glued_in_part_order basePath fileName doc (bs : list bytes) w :
  manifest_served net doc →
  Js.get_prop doc (manifest_key (basePath +:+ fileName))
  = Js.Found (Some (JNum (Z.of_nat (length bs)))) →
  bs ≠ [] →
  (∀ (j : nat) b, bs !! j = Some b →
     net ((basePath +:+ fileName) +:+ ".part" +:+ Str.of_number (N.of_nat j + 1))
     = Some (Response true (Some b))) →
  ∃ url w',
    getReconstructedFileUrl net basePath fileName w = (Returns url, w')
    ∧ object_urls w' = object_urls w ++ [concat bs]
    ∧ resolve_object_url w' url = Some (concat bs).
Proof.
  intros Hdoc Hget Hbs Hnet. eexists _, _.
  rewrite (resolve_glues _ _ doc bs) by done.
  split; [done|]. split; [done|]. apply resolve_fresh_object_url.
Qed.

(** X12.  A manifest value that is truthy but gives the chunk loop no
    round (a negative number, or a value whose number is [NaN]) is not
    treated as absent: no chunk is requested, an empty blob is registered
    and its URL is returned in place of the direct URL. *)
Theorem entry_without_rounds_gives_empty_blob basePath fileName doc v w :
  manifest_served net doc →
  Js.get_prop doc (manifest_key (basePath +:+ fileName)) = Js.Found (Some v) →
  Js.truthy (Some v) = true →
  (Js.ToNumber v = IsNaN ∨ ∃ n, Js.ToNumber v = IsNumber n ∧ (n ≤ 0)%Z) →
  getReconstructedFileUrl net basePath fileName w
  = (Returns (object_url (length (object_urls w))),
     Browser (requests w ++ [manifestUrl]) (object_urls w ++ [[]])).
Proof.
  intros Hdoc Hget Htruthy Hnum.
  rewrite (resolve_manifest_served _ _ _ doc) by done. cbn zeta.
  rewrite Hget, Htruthy. unfold assemble, bind at 1, iterations.
  cbn [default from_option id].
  destruct Hnum as [->|(n & -> & Hn)]; [|unfold ret at 1; cbv beta;
    replace (Z.to_nat n) with 0 by lia]; done.
Qed.

(** X13.  A manifest that is the JSON value [null] makes the lookup of
    the entry throw; the error is caught like any other and the direct
    URL is returned after the manifest request alone. *)
Theorem null_manifest_gives_direct_url basePath fileName w :
  manifest_served net JNull →
  getReconstructedFileUrl net basePath fileName w
  = (Returns (basePath +:+ fileName),
     Browser (requests w ++ [manifestUrl]) (object_urls w)).
Proof.
  intros Hdoc. by rewrite (resolve_manifest_served _ _ _ JNull).
Qed.

(** X14.  For a relative path of plain names (none empty, ["."] or
    [".."]) without a backslash, the key under which the Splitter
    records the file [PUBLIC_DIR/rel] is the key the Reconstructor looks
    up for the URL [DIST_URL + rel], whatever the base URL is. *)
Theorem splitter_and_reconstructor_keys_agree (rel : string) :
  plain_path rel = true →
  Str.replace_backslash rel = rel →
  relativePathOf (Path.join PUBLIC_DIR rel) = rel
  ∧ manifest_key (DIST_URL +:+ rel) = rel.
Proof.
  intros Hplain Hback. split.
  - unfold relativePathOf. by rewrite relative_join.
  - unfold manifest_key. by rewrite startsWith_app, substring_app, plain_path_no_slash.
Qed.

(** X15.  Nothing is cached: a second call for the same file requests
    the manifest and every chunk again and registers a second blob with
    the same bytes under a different URL. *)
Theorem second_call_fetches_again basePath fileName doc (bs : list bytes) w :
  manifest_served net doc →
  Js.get_prop doc (manifest_key (basePath +:+ fileName))
  = Js.Found (Some (JNum (Z.of_nat (length bs)))) →
  bs ≠ [] →
  (∀ (j : nat) b, bs !! j = Some b →
     net ((basePath +:+ fileName) +:+ ".part" +:+ Str.of_number (N.of_nat j + 1))
     = Some (Response true (Some b))) →
  let asked := manifestUrl :: part_names (basePath +:+ fileName) (length bs) in
  ∃ url1 url2,
    (let* first := getReconstructedFileUrl net basePath fileName in
     let* second := getReconstructedFileUrl net basePath fileName in
     ret (first, second)) w
    = (Returns (url1, url2),
       Browser (requests w ++ asked ++ asked) (object_urls w ++ [concat bs; concat bs]))
    ∧ url1 ≠ url2.
Proof.
  intros Hdoc Hget Hbs Hnet asked. eexists _, _.
  unfold bind at 1. rewrite (resolve_glues _ _ doc bs) by done.
  unfold bind at 1. rewrite (resolve_glues _ _ doc bs) by done.
  unfold ret. cbn [requests object_urls]. rewrite <- !List.app_assoc. split; [done|].
  intros Heq%object_url_inj. rewrite length_app in Heq. cbn in Heq. lia.
Qed.

Lemma resolve_frame basePath fileName w :
  let w' := (getReconstructedFileUrl net basePath fileName w).2 in
  (∃ rq, requests w' = requests w ++ manifestUrl :: rq)
  ∧ (object_urls w' = object_urls w ∨ ∃ blob, object_urls w' = object_urls w ++ [blob])
  ∧ ∀ url b, resolve_object_url w url = Some b → resolve_object_url w' url = Some b.
Proof.
  cbn zeta.
  assert (∀ w' : browser,
            (∃ rq, requests w' = requests w ++ manifestUrl :: rq) →
            (object_urls w' = object_urls w
             ∨ ∃ blob, object_urls w' = object_urls w ++ [blob]) →
            (∃ rq, requests w' = requests w ++ manifestUrl :: rq)
            ∧ (object_urls w' = object_urls w
               ∨ ∃ blob, object_urls w' = object_urls w ++ [blob])
            ∧ ∀ url b, resolve_object_url w url = Some b →
                       resolve_object_url w' url = Some b) as Hframe.
  { intros w' Hrq Hurls. split; [done|]. split; [done|]. intros url b Hb.
    destruct w as [rq0 blobs0], w' as [rq1 blobs1]. cbn in Hurls.
    destruct Hurls as [->|[blob ->]].
    - rewrite <- (app_nil_r blobs0). by eapply resolve_object_url_app.
    - by eapply resolve_object_url_app. }
  destruct manifest_served_or_not as [Hfail|[doc Hdoc]].
  { rewrite resolve_manifest_fails by done. apply Hframe; cbn; [by exists []|by left]. }
  rewrite (resolve_manifest_served _ _ _ doc) by done. cbn zeta.
  destruct (Js.get_prop _ _) as [v| |];
    [|apply Hframe; cbn; [by exists []|right; by eexists]
     |apply Hframe; cbn; [by exists []|by left]].
  destruct (Js.truthy v); [|apply Hframe; cbn; [by exists []|by left]].
  destruct (assemble net _ _ _) as [[url|e] w1] eqn:Hasm;
    apply assemble_frame in Hasm as [[rq Hrq] Hurls];
    unfold asked_manifest in Hrq, Hurls; cbn [requests object_urls] in Hrq, Hurls;
    (apply Hframe; cbn [snd]; [|done]);
    rewrite Hrq, <- List.app_assoc; by exists rq.
Qed.

(** X16.  Whatever the network does, a call asks for the manifest first,
    only adds to the requests, registers at most one blob and leaves
    every object URL handed out before resolving to the same bytes. *)
Theorem resolve_keeps_earlier_blobs basePath fileName w :
  let w' := (getReconstructedFileUrl net basePath fileName w).2 in
  (∃ rq, requests w' = requests w ++ manifestUrl :: rq)
  ∧ (object_urls w' = object_urls w ∨ ∃ blob, object_urls w' = object_urls w ++ [blob])
  ∧ ∀ url b, resolve_object_url w url = Some b → resolve_object_url w' url = Some b.
Proof. apply resolve_frame. Qed.

(** X27.  A key that the manifest object does not have but that names a
    property of [Object.prototype] ([constructor], [toString], ...) is
    not treated as absent: what is found there is truthy and no number
    above zero, so no chunk is requested, an empty blob is registered
    and its URL is returned in place of the direct URL. *)
Theorem prototype_key_gives_empty_blob basePath fileName props w :
  manifest_served net (JObj props) →
  props !! manifest_key (basePath +:+ fileName) = None →
  manifest_key (basePath +:+ fileName) ∈ Js.Object_prototype_keys →
  getReconstructedFileUrl net basePath fileName w
  = (Returns (object_url (length (object_urls w))),
     Browser (requests w ++ [manifestUrl]) (object_urls w ++ [[]])).
Proof.
  intros Hdoc Hown Hkey.
  rewrite (resolve_manifest_served _ _ _ (JObj props)) by done. cbn zeta.
  unfold Js.get_prop. cbn [Js.own_prop]. rewrite Hown.
  unfold Js.inherited. by rewrite (proj2 (has_key_elem_of _ _) Hkey).
Qed.

End ReconstructorMore.

(** ** The converter object *)

Section WrapperFacts.
Import Wrapper.
Context `{Host} `{Engine}.
Variable net : string → option response.

Lemma split_at_free sep e : free_of sep e = true → split_at sep e = (e, []).
Proof.
  induction e as [|c e IH]; [done|]. cbn. intros He.
  destruct (decide (c = sep)); [done|]. by rewrite IH.
Qed.

Lemma split_at_last sep base e :
  free_of sep e = true →
  ∃ segment rest,
    split_at sep (base +:+ String sep e) = (segment, rest) ∧ last rest = Some e.
Proof.
  intros He. induction base as [|c base (segment & rest & IH & Hlast)].
  - rewrite str_app_nil. cbn. rewrite split_at_free by done.
    rewrite decide_True by done. by eexists _, _.
  - rewrite str_app_cons. cbn. rewrite IH.
    destruct (decide (c = sep)); eexists _, _; (split; [done|]); [|done].
    destruct rest; [done|]. exact Hlast.
Qed.

Lemma foldl_onProgress_of (cb : bool) (reports : list LoadProgress) p :
  initialized (this p) = false →
  foldl (λ p info, onProgress_of cb info p) p reports
  = Page (this p) (window p) (listening p)
      (delivered p ++ if cb then shown <$> reports else []).
Proof.
  revert p. induction reports as [|info reports IH]; intros p Hinit.
  { cbn. destruct cb; rewrite ?app_nil_r; by destruct p. }
  cbn [foldl]. rewrite IH.
  - unfold onProgress_of, deliver. rewrite Hinit. destruct cb; cbn; [|done].
    by rewrite <- List.app_assoc.
  - unfold onProgress_of, deliver. by destruct (cb && _).
Qed.

(** The page an [initialize] call that entered leaves behind, and how the
    call ends, once the two assets are resolved. *)
Lemma initialize_run (cb : bool) p u1 w1 u2 w2 :
  initialized (this p) = false →
  initializing (this p) = false →
  getReconstructedFileUrl net (basePath (this p)) "soffice.wasm.gz" (window p)
  = (Returns u1, w1) →
  getReconstructedFileUrl net (basePath (this p)) "soffice.data.gz" w1
  = (Returns u2, w2) →
  let b := basePath (this p) in
  let options :=
    EngineConfig (b +:+ "soffice.js") u1 u2
      (b +:+ "soffice.worker.js") (b +:+ "browser.worker.global.js") false in
  let h := Handle (length (listening p)) options in
  let d1 : list LoadProgress := delivered p ++ (if cb then [loading] else []) in
  let d2 : list LoadProgress :=
    d1 ++ (if cb then shown <$> (engine_startup options).1 else []) in
  initialize net cb p
  = if engine_constructs options then
      if (engine_startup options).2 then
        (Resolved,
         Page (Instance (Some h) true false b) w2
           (<[length (listening p) := false]> (listening p ++ [cb]))
           (d2 ++ if cb then [ready] else []))
      else
        (Rejected (Failure "initialize"),
         Page (Instance (Some h) false false b) w2 (listening p ++ [cb]) d2)
    else
      (Rejected (Failure "WorkerBrowserConverter"),
       Page (Instance (converter (this p)) false false b) w2 (listening p) d1).
Proof.
  destruct p as [[c i0 i1 b] w l d]. cbn [this window listening delivered
    initialized initializing basePath converter]. intros -> -> Hwasm Hdata. cbn zeta.
  unfold initialize, enter. cbn [this initialized initializing].
  assert (∀ d', (let* sofficeWasmUrl := resolve_asset net "soffice.wasm.gz" in
                 let* sofficeDataUrl := resolve_asset net "soffice.data.gz" in
                 let* h := construct cb sofficeWasmUrl sofficeDataUrl in
                 startup cb h) (Page (Instance c false true b) w l d')
              = (let* h := construct cb u1 u2 in startup cb h)
                  (Page (Instance c false true b) w2 l d')) as Hassets.
  { intros d'. unfold bind at 1, resolve_asset at 1.
    cbn [this window listening delivered basePath]. rewrite Hwasm.
    unfold bind at 1, resolve_asset at 1.
    cbn [this window listening delivered basePath]. by rewrite Hdata. }
  assert (deliver cb loading (set_this (set_initializing true)
            (Page (Instance c false false b) w l d))
          = Page (Instance c false true b) w l (d ++ if cb then [loading] else [])) as ->.
  { unfold deliver, set_this, set_initializing. destruct cb; cbn; by rewrite ?app_nil_r. }
  rewrite Hassets. unfold bind, construct.
  cbn [this window listening delivered basePath].
  destruct (engine_constructs _); [|done].
  unfold startup. cbn [config serial].
  destruct (engine_startup _) as [reports resolves]. cbn [fst snd].
  rewrite foldl_onProgress_of by done.
  cbn [this window listening delivered set_converter converter initialized
         initializing basePath].
  destruct resolves; [|done].
  unfold leave, deliver, set_this, set_initialized, set_initializing.
  destruct cb; cbn; rewrite ?app_nil_r, ?length_app; done.
Qed.

Lemma resolve_asset_returns fileName p :
  ∃ u w, getReconstructedFileUrl net (basePath (this p)) fileName (window p)
         = (Returns u, w).
Proof. apply resolve_never_throws. Qed.

Lemma initialize_flags cb p :
  initializing (this p) = false →
  initializing (this (initialize net cb p).2) = false
  ∧ (initialize net cb p).1 ≠ Polling
  ∧ (initialized (this (initialize net cb p).2) = true ↔ (initialize net cb p).1 = Resolved).
Proof.
  intros Hflag. destruct (initialized (this p)) eqn:Hinit.
  { unfold initialize, enter. rewrite Hinit. cbn. by rewrite Hflag, Hinit. }
  destruct (resolve_asset_returns "soffice.wasm.gz" p) as (u1 & w1 & Hwasm).
  destruct (getReconstructedFileUrl net (basePath (this p)) "soffice.data.gz" w1)
    as [r2 w2] eqn:Hdata.
  destruct (resolve_never_throws net (basePath (this p)) "soffice.data.gz" w1)
    as (u2 & w2' & Hdata').
  rewrite Hdata' in Hdata. injection Hdata as <- <-.
  rewrite (initialize_run cb p u1 w1 u2 w2') by done. cbn zeta.
  destruct (engine_constructs _); [destruct (engine_startup _).2|]; cbn;
    (split; [done|]); (split; [done|]); split; done.
Qed.

Lemma inside_count_cons (a : task) ts :
  inside_count (a :: ts) = (if inside a then 1 else 0) + inside_count ts.
Proof. reflexivity. Qed.

Lemma inside_count_app ts1 ts2 :
  inside_count (ts1 ++ ts2) = inside_count ts1 + inside_count ts2.
Proof.
  induction ts1 as [|a ts1 IH]; [done|].
  rewrite <- app_comm_cons, !inside_count_cons, IH. lia.
Qed.

Lemma sum_inside_insert (ts : list task) i t t' :
  ts !! i = Some t →
  inside_count (<[i := t']> ts) + (if inside t then 1 else 0)
  = inside_count ts + (if inside t' then 1 else 0).
Proof.
  revert i. induction ts as [|a ts IH]; intros i Hi; [done|].
  destruct i as [|i].
  - injection Hi as ->. change (<[0:=t']> (t :: ts)) with (t' :: ts).
    rewrite !inside_count_cons. lia.
  - change (<[S i:=t']> (a :: ts)) with (a :: <[i:=t']> ts).
    rewrite !inside_count_cons. specialize (IH i Hi). lia.
Qed.

Lemma task_step_flag t p :
  let t' := (task_step net t p).1 in
  let p' := (task_step net t p).2 in
  match inside t, inside t' with
  | true, true => initializing (this p') = initializing (this p)
  | true, false => initializing (this p') = false
  | false, true => initializing (this p) = false ∧ initializing (this p') = true
  | false, false => initializing (this p') = initializing (this p)
  end.
Proof.
  destruct t as [cb| |cb|cb u|cb h| |h| |e]; cbn [task_step inside].
  - unfold enter. destruct (initialized (this p)); [done|].
    destruct (initializing (this p)) eqn:Hflag; [cbn; by rewrite Hflag|].
    cbn. split; [done|]. unfold deliver. by destruct cb.
  - destruct (initializing (this p)) eqn:Hflag; cbn; by rewrite ?Hflag.
  - unfold resolve_asset.
    destruct (getReconstructedFileUrl _ _ _ _) as [[u|e] w]; done.
  - unfold bind, resolve_asset, construct.
    destruct (getReconstructedFileUrl _ _ _ _) as [[u2|e] w]; [|done].
    cbn [this window listening delivered basePath].
    by destruct (engine_constructs _).
  - unfold startup. destruct (engine_startup _) as [reports resolves].
    by destruct resolves.
  - by destruct (converter (this p)).
  - by destruct (engine_destroy _).
  - done.
  - done.
Qed.

(** X17.  A call of [initialize] that finds the object neither
    initialized nor initializing, and whose engine is built and starts,
    leaves the object ready.  It has resolved [soffice.wasm.gz] before
    [soffice.data.gz], asking for the manifest once for each, and the
    engine was given [basePath + 'soffice.js'], the two resolved URLs and
    the two worker scripts under [basePath]. *)
Theorem initialize_makes_ready (cb : bool) p u1 w1 u2 w2 :
  initialized (this p) = false →
  initializing (this p) = false →
  getReconstructedFileUrl net (basePath (this p)) "soffice.wasm.gz" (window p)
  = (Returns u1, w1) →
  getReconstructedFileUrl net (basePath (this p)) "soffice.data.gz" w1
  = (Returns u2, w2) →
  let b := basePath (this p) in
  let options :=
    EngineConfig (b +:+ "soffice.js") u1 u2
      (b +:+ "soffice.worker.js") (b +:+ "browser.worker.global.js") false in
  engine_constructs options = true →
  (engine_startup options).2 = true →
  ∃ p',
    initialize net cb p = (Resolved, p')
    ∧ isReady p' = true
    ∧ initializing (this p') = false
    ∧ config <$> converter (this p') = Some options
    ∧ window p' = w2
    ∧ ∃ rq1 rq2,
        requests w1 = requests (window p) ++ manifestUrl :: rq1
        ∧ requests w2 = requests w1 ++ manifestUrl :: rq2.
Proof.
  intros Hinit Hflag Hwasm Hdata b options Hbuilt Hstarts.
  rewrite (initialize_run cb p u1 w1 u2 w2) by done. cbn zeta.
  fold b. fold options. rewrite Hbuilt, Hstarts. eexists. split; [done|].
  split_and!; try done.
  destruct (resolve_frame net b "soffice.wasm.gz" (window p)) as [[rq1 Hrq1] _].
  destruct (resolve_frame net b "soffice.data.gz" w1) as [[rq2 Hrq2] _].
  unfold b in *. rewrite Hwasm in Hrq1. rewrite Hdata in Hrq2. by exists rq1, rq2.
Qed.

(** X18.  Whatever the network and the engine do, a call of [initialize]
    on an object that is not initializing comes to an end with
    [initializing] reset, and it resolves exactly when the object is
    initialized afterwards: a failed start never leaves the flag set. *)
Theorem initialize_resets_initializing (cb : bool) p :
  initializing (this p) = false →
  initializing (this (initialize net cb p).2) = false
  ∧ (initialize net cb p).1 ≠ Polling
  ∧ (initialized (this (initialize net cb p).2) = true
     ↔ (initialize net cb p).1 = Resolved).
Proof. apply initialize_flags. Qed.


Lemma Math_round_nearest (m k z : Z) :
  (0 ≤ k)%Z →
  (2 * z * 2 ^ k ≤ 2 * m + 2 ^ k < (2 * z + 2) * 2 ^ k)%Z →
  Math_round (Dyadic m (- k)) = Dyadic z 0.
Proof.
  intros Hk Hz. unfold Math_round.
  destruct (Z.leb_spec 0 (- k)) as [Hzero|Hneg].
  - assert (k = 0%Z) as -> by lia. cbn in *. f_equal. lia.
  - f_equal. rewrite Z.opp_involutive.
    replace (1 - - k)%Z with (Z.succ k) by lia. rewrite Z.pow_succ_r by done.
    assert (0 < 2 ^ k)%Z as Hpos by (apply Z.pow_pos_nonneg; lia).
    symmetry. apply (Z.div_unique _ _ _ (2 * m + 2 ^ k - z * (2 * 2 ^ k))); lia.
Qed.

Lemma Number_toString_integer (z : Z) :
  (Z.abs z ≤ 2 ^ 53)%Z → Number_toString (Dyadic z 0) = pretty z.
Proof.
  intros Hz. unfold Number_toString, as_integer.
  change (0 <=? 0)%Z with true. cbv iota. rewrite Z.pow_0_r, Z.mul_1_r.
  by rewrite (proj2 (Z.leb_le _ _) Hz).
Qed.

(** X20.  In a call of [initialize] that succeeds the callback is called
    with [loading] at 0 percent first, then once for every report of the
    engine, with the phase and percentage of the report under the
    message [shown] builds, and with [ready] at 100 percent last;
    without a callback nothing is delivered.  A report at [m / 2^k]
    percent arrives under "Loading conversion engine (z%)..." for the
    integer [z] nearest to it, the upper one of two that are equally
    near, when [z] is at most [2^53] in size. *)
Theorem progress_of_a_successful_start (cb : bool) p u1 w1 u2 w2 :
  initialized (this p) = false →
  initializing (this p) = false →
  getReconstructedFileUrl net (basePath (this p)) "soffice.wasm.gz" (window p)
  = (Returns u1, w1) →
  getReconstructedFileUrl net (basePath (this p)) "soffice.data.gz" w1
  = (Returns u2, w2) →
  let b := basePath (this p) in
  let options :=
    EngineConfig (b +:+ "soffice.js") u1 u2
      (b +:+ "soffice.worker.js") (b +:+ "browser.worker.global.js") false in
  engine_constructs options = true →
  (engine_startup options).2 = true →
  delivered (initialize net cb p).2
  = delivered p
    ++ (if cb then loading :: (shown <$> (engine_startup options).1) ++ [ready] else [])
  ∧ ∀ info (m k z : Z),
      cb = true →
      info ∈ (engine_startup options).1 →
      percent info = Dyadic m (- k) →
      (0 ≤ k)%Z →
      (2 * z * 2 ^ k ≤ 2 * m + 2 ^ k < (2 * z + 2) * 2 ^ k)%Z →
      (Z.abs z ≤ 2 ^ 53)%Z →
      Progress (phase info) (percent info)
        ("Loading conversion engine (" +:+ pretty z +:+ "%)...")
      ∈ delivered (initialize net cb p).2.
Proof.
  intros Hinit Hflag Hwasm Hdata b options Hbuilt Hstarts.
  assert (delivered (initialize net cb p).2
          = delivered p
            ++ (if cb then loading :: (shown <$> (engine_startup options).1) ++ [ready]
                else [])) as Hdelivered.
  { rewrite (initialize_run cb p u1 w1 u2 w2) by done. cbn zeta.
    fold b. fold options. rewrite Hbuilt, Hstarts. cbn [snd delivered].
    destruct cb; rewrite ?app_nil_r; [|done]. by rewrite <- !List.app_assoc. }
  split; [exact Hdelivered|].
  intros info m k z -> Hinfo Hpercent Hk Hz Hsafe. rewrite Hdelivered.
  apply elem_of_app. right. apply elem_of_cons. right. apply elem_of_app. left.
  apply list_elem_of_fmap. exists info. split; [|done].
  unfold shown. f_equal.
  by rewrite Hpercent, (Math_round_nearest m k z), Number_toString_integer.
Qed.

(** X21.  After a call of [initialize] that succeeded, whatever the
    engine it started reports later is kept from the callback, also once
    [destroy] has made the object uninitialized again. *)
Theorem late_reports_are_dropped (cb : bool) p u1 w1 u2 w2 info :
  initialized (this p) = false →
  initializing (this p) = false →
  getReconstructedFileUrl net (basePath (this p)) "soffice.wasm.gz" (window p)
  = (Returns u1, w1) →
  getReconstructedFileUrl net (basePath (this p)) "soffice.data.gz" w1
  = (Returns u2, w2) →
  let b := basePath (this p) in
  let options :=
    EngineConfig (b +:+ "soffice.js") u1 u2
      (b +:+ "soffice.worker.js") (b +:+ "browser.worker.global.js") false in
  engine_constructs options = true →
  (engine_startup options).2 = true →
  let p' := (initialize net cb p).2 in
  let k := length (listening p) in
  late_report k info p' = p'
  ∧ late_report k info (destroy p').2 = (destroy p').2.
Proof.
  intros Hinit Hflag Hwasm Hdata b options Hbuilt Hstarts.
  rewrite (initialize_run cb p u1 w1 u2 w2) by done. cbn zeta.
  fold b. fold options. rewrite Hbuilt, Hstarts. cbn [snd].
  assert (∀ o w d, late_report (length (listening p)) info
            (Page o w (<[length (listening p) := false]> (listening p ++ [cb])) d)
          = Page o w (<[length (listening p) := false]> (listening p ++ [cb])) d) as Hmute.
  { intros o w d. unfold late_report. cbn [listening].
    rewrite list_lookup_insert_eq by (rewrite length_app; cbn; lia). done. }
  split; [apply Hmute|].
  unfold destroy. cbn [this converter config].
  destruct (engine_destroy _); cbn [snd]; apply Hmute.
Qed.

(** X22.  When [destroy] goes through, the object is not ready any more
    and [convertToPdf] throws "Converter not initialized" for every file,
    while the browser, the base path and [initializing] are as before;
    when the engine's own [destroy] rejects, the object is left as it
    was. *)
Theorem destroy_forgets_the_engine p :
  ((∀ h, converter (this p) = Some h → engine_destroy (config h) = true) →
     ∃ p',
       destroy p = (Returns (), p')
       ∧ isReady p' = false
       ∧ (∀ file, convertToPdf file p'
                  = (Throws (Failure "Converter not initialized"), p'))
       ∧ window p' = window p
       ∧ basePath (this p') = basePath (this p)
       ∧ initializing (this p') = initializing (this p))
  ∧ (∀ h, converter (this p) = Some h → engine_destroy (config h) = false →
          destroy p = (Throws (Failure "destroy"), p)).
Proof.
  split.
  - intros Hok. exists (forget p). split.
    + unfold destroy. destruct (converter (this p)) as [h|]; [|done].
      by rewrite (Hok h eq_refl).
    + done.
  - intros h Hh Hfail. unfold destroy. by rewrite Hh, Hfail.
Qed.

(** X23.  When the engine is built but its start is rejected,
    [initialize] rejects and the object is not ready, yet the engine
    object stays in [converter]: [convertToPdf] does not throw
    "Converter not initialized" but hands the file to that engine. *)
Theorem failed_start_keeps_the_engine (cb : bool) p u1 w1 u2 w2 file data :
  initialized (this p) = false →
  initializing (this p) = false →
  getReconstructedFileUrl net (basePath (this p)) "soffice.wasm.gz" (window p)
  = (Returns u1, w1) →
  getReconstructedFileUrl net (basePath (this p)) "soffice.data.gz" w1
  = (Returns u2, w2) →
  let b := basePath (this p) in
  let options :=
    EngineConfig (b +:+ "soffice.js") u1 u2
      (b +:+ "soffice.worker.js") (b +:+ "browser.worker.global.js") false in
  engine_constructs options = true →
  (engine_startup options).2 = false →
  file_buffer file = Some data →
  ∃ e p',
    initialize net cb p = (Rejected e, p')
    ∧ isReady p' = false
    ∧ initializing (this p') = false
    ∧ convertToPdf file p'
      = match engine_convert options data (input_format (file_name file))
                (file_name file) with
        | Some (out, mimeType) => (Returns (Build_Blob out mimeType), p')
        | None => (Throws (Failure "convert"), p')
        end.
Proof.
  intros Hinit Hflag Hwasm Hdata b options Hbuilt Hstarts Hfile.
  rewrite (initialize_run cb p u1 w1 u2 w2) by done. cbn zeta.
  fold b. fold options. rewrite Hbuilt, Hstarts. eexists _, _. split; [done|].
  split_and!; try done.
  unfold convertToPdf. cbn [this converter config]. rewrite Hfile. done.
Qed.

(** X24.  The input format handed to the engine is the text after the
    last ['.'] of the file name in lower case, and the whole name in
    lower case when it has no ['.']. *)
Theorem input_format_is_lowercase_extension (base e : string) :
  free_of "." e = true →
  input_format (base +:+ "." +:+ e) = toLowerCase e
  ∧ input_format e = toLowerCase e.
Proof.
  intros He. unfold input_format, split. split.
  - destruct (split_at_last "." base e He) as (segment & rest & Hsplit & Hlast).
    change ("." +:+ e) with (String "." e). rewrite Hsplit.
    destruct rest; [done|]. cbn [last] in *. by rewrite Hlast.
  - by rewrite split_at_free.
Qed.

(** X25.  However calls of [initialize] and [destroy] interleave at their
    [await]s, starting from an object that is not initializing and with
    no call in flight: at most one call of [initialize] is between
    setting [initializing] and its [finally] block, and [initializing] is
    set exactly while one is. *)
Theorem one_initialize_at_a_time p0 sys :
  initializing (this p0) = false →
  rtc (sys_step net) (System p0 []) sys →
  inside_count (tasks sys) = (if initializing (this (world sys)) then 1 else 0).
Proof.
  intros Hflag Hrun.
  assert (inside_count (tasks (System p0 []))
          = if initializing (this (world (System p0 []))) then 1 else 0) as Hstart
    by (cbn; by rewrite Hflag).
  remember (System p0 []) as start eqn:Hs. clear Hs Hflag.
  induction Hrun as [|start next sys Hstep _ IH]; [done|]. apply IH. clear IH.
  destruct Hstep as [p ts cb|p ts|p ts i t Hi]; cbn [tasks world] in *.
  - rewrite inside_count_app. cbn. lia.
  - rewrite inside_count_app. cbn. lia.
  - pose proof (sum_inside_insert ts i t (task_step net t p).1 Hi) as Hcount.
    pose proof (task_step_flag t p) as Hstep. cbn zeta in Hstep.
    destruct (inside t), (inside (task_step net t p).1).
    + rewrite Hstep. lia.
    + rewrite Hstep. destruct (initializing (this p)); lia.
    + destruct Hstep as [Hbefore Hafter]. rewrite Hafter. rewrite Hbefore in Hstart. lia.
    + rewrite Hstep. lia.
Qed.

(** X26.  When [destroy] completes while the engine is still starting and
    the start then resolves, the object ends up initialized without a
    converter: it is not ready, [convertToPdf] throws "Converter not
    initialized", and [initialize] returns at once without building an
    engine. *)
Theorem destroy_during_start_strands_the_object (cb cb' : bool) p h file :
  initialized (this p) = false →
  engine_destroy (config h) = true →
  (engine_startup (config h)).2 = true →
  let p1 := (task_step net (DestroyAwait h) p).2 in
  let p2 := (task_step net (InitAwaitEngine cb h) p1).2 in
  (task_step net (InitAwaitEngine cb h) p1).1 = TaskResolved
  ∧ isReady p2 = false
  ∧ initialize net cb' p2 = (Resolved, p2)
  ∧ convertToPdf file p2 = (Throws (Failure "Converter not initialized"), p2).
Proof.
  intros Hinit Hdestroy Hstart. cbn [task_step]. rewrite Hdestroy. cbn [snd].
  unfold startup. destruct (engine_startup (config h)) as [reports resolves].
  cbn in Hstart. subst resolves. cbn [fst snd].
  rewrite foldl_onProgress_of by done.
  unfold initialize, enter, isReady, convertToPdf.
  destruct cb; cbn; split_and!; done.
Qed.

End WrapperFacts.

(** ** The further properties at work on the small instance *)

Section MoreScenarios.
Import Demo DemoEngine.
Local Existing Instance host.
Local Existing Instance engine.

Lemma listed_paths_are_below_dir_witness :
  Path.join "/srv/public" (Path.relative "/srv/public" "/srv/public/lib/b.bin")
  = "/srv/public/lib/b.bin".
Proof.
  apply (listed_paths_are_below_dir "/srv/public" tree0).
  apply (bool_decide_unpack _). by vm_compute.
Defined.

Lemma hygienic_tree_lists_no_path_twice_witness :
  NoDup (getAllFiles "/srv/public" tree0 []).
Proof. apply (hygienic_tree_lists_no_path_twice "/srv/public" tree0). reflexivity. Defined.

(** Ten bytes in chunks of four: 4, 4 and 2 bytes. *)
Lemma all_chunks_full_but_the_last_witness :
  ∃ manifest' s',
    split_file 4 "/srv/public/a.bin" (JObj ∅, false) fs0 = (Returns (manifest', true), s')
    ∧ ∀ i : nat, i < 3 →
        ∃ chunk,
          disk s' !! chunkPath "/srv/public/a.bin" (N.of_nat i) = Some chunk
          ∧ N.of_nat (length chunk) = if decide (S i < 3) then 4%N else 2%N.
Proof.
  destruct (all_chunks_full_but_the_last 4 "/srv/public/a.bin" ten_bytes ∅ false fs0)
    as (manifest' & s' & Hrun & _ & Hchunks).
  - reflexivity.
  - reflexivity.
  - by vm_compute.
  - reflexivity.
  - exists manifest', s'. split; [exact Hrun|exact Hchunks].
Defined.

Lemma split_touches_only_its_own_names_witness :
  ∃ manifest' s',
    split_file 4 "/srv/public/a.bin" (JObj ∅, false) fs0 = (Returns (manifest', true), s')
    ∧ disk s' !! "/srv/public/lib/b.bin" = Some [x01; x02; x03; x04].
Proof.
  destruct (split_touches_only_its_own_names 4 "/srv/public/a.bin" ten_bytes ∅ false fs0)
    as (manifest' & s' & Hrun & Hframe).
  - reflexivity.
  - by vm_compute.
  - reflexivity.
  - exists manifest', s'. split; [exact Hrun|].
    rewrite Hframe; [reflexivity|by vm_compute|].
    apply (bool_decide_unpack _). by vm_compute.
Defined.

(** The entry for the data segment is still there after [a.bin] was split. *)
Lemma earlier_manifest_entries_survive_witness :
  let s' := final_state (splitFilesWith 4 (Some tree0) fs_entry) in
  s' = fs_entry
  ∨ ∃ props' ops,
      oplog s' = oplog fs_entry ++ ops
      ∧ disk s' !! MANIFEST_FILE = Some (JSON_stringify (JObj props'))
      ∧ ∀ k v, ({[ "libreoffice-wasm/soffice.data.gz" := JNum 2 ]} : gmap string json)
                 !! k = Some v →
               props' !! k = Some v ∨ ∃ p, OpUnlink p ∈ ops ∧ k = relativePathOf p.
Proof.
  apply (earlier_manifest_entries_survive 4 tree0 fs_entry _ [x42]).
  - reflexivity.
  - reflexivity.
  - vm_compute. reflexivity.
Defined.


(** The manifest file holds [0] and [a.bin] is too large: the run leaves
    with exit code 1 and the disk is as it was. *)
Lemma unassignable_manifest_aborts_before_writing_witness :
  splitFilesWith 4 (Some tree0) fs_zero = Exit1 fs_zero.
Proof.
  destruct (unassignable_manifest_aborts_before_writing 4 tree0 fs_zero [x30] (JNum 0))
    as [Habort _].
  - reflexivity.
  - reflexivity.
  - reflexivity.
  - apply Forall_forall. apply (bool_decide_unpack _). by vm_compute.
  - apply Forall_forall. apply (bool_decide_unpack _). by vm_compute.
  - apply Habort. exists "/srv/public/a.bin", ten_bytes. split_and!.
    + apply (bool_decide_unpack _). by vm_compute.
    + by vm_compute.
    + reflexivity.
    + reflexivity.
Defined.

Lemma first_failing_chunk_ends_the_requests_witness :
  getReconstructedFileUrl net_gap "/" "a.bin" browser0
  = (Returns "/a.bin",
     Browser ["/chunks-manifest.json"; "/a.bin.part1"; "/a.bin.part2"] []).
Proof.
  refine (first_failing_chunk_ends_the_requests net_gap "/" "a.bin" manifest_a 3 2
            browser0 _ _ _ _ _).
  - by exists [x41].
  - reflexivity.
  - lia.
  - intros u Hu. vm_compute in Hu. apply list_elem_of_In in Hu.
    destruct Hu as [<-|[]]; eexists; reflexivity.
  - left. reflexivity.
Defined.

Lemma chunks_are_glued_in_part_order_witness :
  ∃ url w',
    getReconstructedFileUrl net_gz "/libreoffice-wasm/" "soffice.data.gz" browser0
    = (Returns url, w')
    ∧ object_urls w' = [seven_bytes]
    ∧ resolve_object_url w' url = Some seven_bytes.
Proof.
  refine (chunks_are_glued_in_part_order net_gz "/libreoffice-wasm/" "soffice.data.gz"
            manifest_gz [[x61; x62; x63; x64]; [x65; x66; x67]] browser0 _ _ _ _).
  - by exists [x42].
  - reflexivity.
  - done.
  - intros [|[|j]] b Hb; cbn in Hb; [injection Hb as <-; reflexivity..|done].
Defined.

Lemma entry_without_rounds_gives_empty_blob_witness :
  getReconstructedFileUrl (H := host_negative) net_negative "/" "a.bin" browser0
  = (Returns "blob:0", Browser ["/chunks-manifest.json"] [[]]).
Proof.
  refine (entry_without_rounds_gives_empty_blob (H := host_negative) net_negative
            "/" "a.bin" negative_entry (JNum (-1)) browser0 _ _ _ _).
  - by exists [x4e].
  - reflexivity.
  - reflexivity.
  - right. exists (-1)%Z. split; [reflexivity|lia].
Defined.

Lemma null_manifest_gives_direct_url_witness :
  getReconstructedFileUrl (H := host_negative) net_null "/" "a.bin" browser0
  = (Returns "/a.bin", Browser ["/chunks-manifest.json"] []).
Proof.
  refine (null_manifest_gives_direct_url (H := host_negative) net_null
            "/" "a.bin" browser0 _).
  by exists [x6e].
Defined.

(** The manifest has an entry for [a.bin] only, and the file asked for is
    called [constructor]. *)
Lemma prototype_key_gives_empty_blob_witness :
  getReconstructedFileUrl net_gap "/" "constructor" browser0
  = (Returns "blob:0", Browser ["/chunks-manifest.json"] [[]]).
Proof.
  refine (prototype_key_gives_empty_blob net_gap "/" "constructor"
            {[ "a.bin" := JNum 3 ]} browser0 _ _ _).
  - by exists [x41].
  - reflexivity.
  - apply (bool_decide_unpack _). by vm_compute.
Defined.

Lemma splitter_and_reconstructor_keys_agree_witness :
  relativePathOf "/srv/public/libreoffice-wasm/soffice.wasm.gz"
  = "libreoffice-wasm/soffice.wasm.gz"
  ∧ manifest_key "/libreoffice-wasm/soffice.wasm.gz" = "libreoffice-wasm/soffice.wasm.gz".
Proof.
  refine (splitter_and_reconstructor_keys_agree "libreoffice-wasm/soffice.wasm.gz" _ _);
    reflexivity.
Defined.

Lemma second_call_fetches_again_witness :
  ∃ url1 url2,
    (let* first := getReconstructedFileUrl net_gz "/libreoffice-wasm/" "soffice.data.gz" in
     let* second := getReconstructedFileUrl net_gz "/libreoffice-wasm/" "soffice.data.gz" in
     ret (first, second)) browser0
    = (Returns (url1, url2),
       Browser ["/chunks-manifest.json";
                "/libreoffice-wasm/soffice.data.gz.part1";
                "/libreoffice-wasm/soffice.data.gz.part2";
                "/chunks-manifest.json";
                "/libreoffice-wasm/soffice.data.gz.part1";
                "/libreoffice-wasm/soffice.data.gz.part2"]
         [seven_bytes; seven_bytes])
    ∧ url1 ≠ url2.
Proof.
  refine (second_call_fetches_again net_gz "/libreoffice-wasm/" "soffice.data.gz"
            manifest_gz [[x61; x62; x63; x64]; [x65; x66; x67]] browser0 _ _ _ _).
  - by exists [x42].
  - reflexivity.
  - done.
  - intros [|[|j]] b Hb; cbn in Hb; [injection Hb as <-; reflexivity..|done].
Defined.

(** The wasm file is not split and the data segment is in two chunks:
    the engine gets the direct URL for the one and a blob URL for the
    other. *)
Lemma initialize_makes_ready_witness :
  ∃ p',
    Wrapper.initialize net_gz true page0 = (Wrapper.Resolved, p')
    ∧ Wrapper.isReady p' = true
    ∧ Wrapper.config <$> Wrapper.converter (Wrapper.this p')
      = Some (Wrapper.EngineConfig "/libreoffice-wasm/soffice.js"
                "/libreoffice-wasm/soffice.wasm.gz" "blob:0"
                "/libreoffice-wasm/soffice.worker.js"
                "/libreoffice-wasm/browser.worker.global.js" false)
    ∧ requests (Wrapper.window p')
      = ["/chunks-manifest.json"; "/chunks-manifest.json";
         "/libreoffice-wasm/soffice.data.gz.part1";
         "/libreoffice-wasm/soffice.data.gz.part2"].
Proof.
  edestruct (initialize_makes_ready net_gz true page0)
    as (p' & Hrun & Hready & _ & Hconfig & Hwindow & _).
  - reflexivity.
  - reflexivity.
  - vm_compute. reflexivity.
  - vm_compute. reflexivity.
  - reflexivity.
  - reflexivity.
  - exists p'. split; [exact Hrun|]. split; [exact Hready|]. split; [exact Hconfig|].
    rewrite Hwindow. reflexivity.
Defined.

Lemma initialize_resets_initializing_witness :
  Wrapper.initializing
    (Wrapper.this (Wrapper.initialize (H0 := engine_that_fails) net_gz true page0).2)
  = false
  ∧ (Wrapper.initialize (H0 := engine_that_fails) net_gz true page0).1 ≠ Wrapper.Polling.
Proof.
  destruct (initialize_resets_initializing (H0 := engine_that_fails) net_gz true page0)
    as (Hflag & Hends & _).
  - reflexivity.
  - split; [exact Hflag|exact Hends].
Defined.


(** The engine reports 40.375 and 89.5 percent: the callback reads 40
    and 90. *)
Lemma progress_of_a_successful_start_witness :
  Wrapper.delivered (Wrapper.initialize net_gz true page0).2
  = [Wrapper.Progress "loading" (integer 0) "Loading conversion engine...";
     Wrapper.Progress "loading" (Dyadic 323 (-3)) "Loading conversion engine (40%)...";
     Wrapper.Progress "initializing" (Dyadic 179 (-1))
       "Loading conversion engine (90%)...";
     Wrapper.Progress "ready" (integer 100) "Conversion engine ready!"]
  ∧ Wrapper.Progress "initializing" (Dyadic 179 (-1)) "Loading conversion engine (90%)..."
    ∈ Wrapper.delivered (Wrapper.initialize net_gz true page0).2.
Proof.
  edestruct (progress_of_a_successful_start net_gz true page0) as [Hdelivered Hshown].
  - reflexivity.
  - reflexivity.
  - vm_compute. reflexivity.
  - vm_compute. reflexivity.
  - reflexivity.
  - reflexivity.
  - split; [rewrite Hdelivered; reflexivity|].
    apply (Hshown (Wrapper.Progress "initializing" (Dyadic 179 (-1)) "Starting") 179 1 90)%Z.
    + reflexivity.
    + apply list_elem_of_In. vm_compute. tauto.
    + reflexivity.
    + lia.
    + lia.
    + lia.
Defined.

Lemma late_reports_are_dropped_witness :
  let p' := (Wrapper.initialize net_gz true page0).2 in
  Wrapper.late_report 0 report p' = p'
  ∧ Wrapper.late_report 0 report (Wrapper.destroy p').2 = (Wrapper.destroy p').2.
Proof.
  eapply (late_reports_are_dropped net_gz true page0).
  - reflexivity.
  - reflexivity.
  - vm_compute. reflexivity.
  - vm_compute. reflexivity.
  - reflexivity.
  - reflexivity.
Defined.

(** The start is rejected, and the letter is converted all the same. *)
Lemma failed_start_keeps_the_engine_witness :
  ∃ e p',
    Wrapper.initialize (H0 := engine_that_fails) net_gz true page0
    = (Wrapper.Rejected e, p')
    ∧ Wrapper.isReady p' = false
    ∧ Wrapper.convertToPdf (H0 := engine_that_fails) letter p'
      = (Returns (Wrapper.Build_Blob seven_bytes "application/pdf"), p').
Proof.
  destruct (failed_start_keeps_the_engine (H0 := engine_that_fails) net_gz true page0
              "/libreoffice-wasm/soffice.wasm.gz" (Browser ["/chunks-manifest.json"] [])
              "blob:0"
              (Browser ["/chunks-manifest.json"; "/chunks-manifest.json";
                        "/libreoffice-wasm/soffice.data.gz.part1";
                        "/libreoffice-wasm/soffice.data.gz.part2"] [seven_bytes])
              letter seven_bytes)
    as (e & p' & Hrun & Hready & _ & Hconvert).
  - reflexivity.
  - reflexivity.
  - vm_compute. reflexivity.
  - vm_compute. reflexivity.
  - reflexivity.
  - reflexivity.
  - reflexivity.
  - exists e, p'. split; [exact Hrun|]. split; [exact Hready|exact Hconvert].
Defined.

Lemma input_format_is_lowercase_extension_witness :
  Wrapper.input_format "Letter.v2.DOCX" = "docx"
  ∧ Wrapper.input_format "DOCX" = "docx".
Proof.
  refine (input_format_is_lowercase_extension "Letter.v2" "DOCX" _). reflexivity.
Defined.

(** Two calls of [initialize]: the first has entered, the second polls. *)
Lemma one_initialize_at_a_time_witness :
  ∃ sys,
    Wrapper.tasks sys = [Wrapper.InitAwaitWasm true; Wrapper.InitPoll]
    ∧ Wrapper.inside_count (Wrapper.tasks sys)
      = if Wrapper.initializing (Wrapper.this (Wrapper.world sys)) then 1 else 0.
Proof.
  eexists. split; [|eapply (one_initialize_at_a_time net_gz page0); [reflexivity|]].
  2:{ eapply rtc_l; [apply (Wrapper.step_call_initialize _ _ _ true)|].
      eapply rtc_l; [apply (Wrapper.step_call_initialize _ _ _ false)|].
      eapply rtc_l; [apply (Wrapper.step_run _ _ _ 0); reflexivity|].
      eapply rtc_l; [apply (Wrapper.step_run _ _ _ 1); reflexivity|].
      apply rtc_refl. }
  reflexivity.
Defined.

Lemma destroy_during_start_strands_the_object_witness :
  let h := Wrapper.Handle 0
             (Wrapper.EngineConfig "" "" "" "" "" false) in
  let p := Wrapper.Page (Wrapper.Instance (Some h) false true "/libreoffice-wasm/")
             browser0 [true] [] in
  let p1 := (Wrapper.task_step net_gz (Wrapper.DestroyAwait h) p).2 in
  let p2 := (Wrapper.task_step net_gz (Wrapper.InitAwaitEngine true h) p1).2 in
  (Wrapper.task_step net_gz (Wrapper.InitAwaitEngine true h) p1).1 = Wrapper.TaskResolved
  ∧ Wrapper.isReady p2 = false
  ∧ Wrapper.initialize net_gz true p2 = (Wrapper.Resolved, p2)
  ∧ Wrapper.convertToPdf letter p2
    = (Throws (Failure "Converter not initialized"), p2).
Proof.
  intros h p.
  apply (destroy_during_start_strands_the_object net_gz true true p h letter);
    reflexivity.
Defined.

End MoreScenarios.
